(** * Omnivore AI annotations: the webhook handlers, embedded and verified

    The repository holds three variants of one Vercel edge function that
    reacts to Omnivore label webhooks:

    - [Annotate]: [src/api/annotate.ts];
    - [Verbose]: the first file of [src/unnamed/part_000] (request ids,
      verbose logging, strict JSON schema);
    - [Legacy]: the second file of [src/unnamed/part_000] (dispatch on
      [body.action]).

    Each variant is embedded as Rocq functions over the same model of the
    JavaScript values it handles.  Strings are byte strings holding the
    UTF-8 encoding of the JavaScript string; [undefined] and [null] are
    [None].  The host's services (fetch against Omnivore, the OpenAI client,
    [JSON.parse], [JSON.stringify], [uuidv4]) are fields of a [Host] record:
    every theorem holds for every host.  [console.log] has no effect on the
    response or on the outbound calls and is left out. *)

From Stdlib Require Import String Ascii List Bool Arith ZArith Lia.
Import ListNotations.
Local Open Scope list_scope.
Local Open Scope string_scope.

(** ** JavaScript string primitives *)

Module JS.

Definition colon : ascii := ":"%char.
Definition newline : ascii := "010"%char.
Definition backslash : ascii := "\"%char.
Definition dquote : ascii := "034"%char.

(** Truthiness of a string: every string but the empty one. *)
Definition truthy (s : string) : bool :=
  match s with
  | EmptyString => false
  | String _ _ => true
  end.

(** Truthiness of [string | null | undefined]. *)
Definition truthy_opt (o : option string) : bool :=
  match o with
  | Some s => truthy s
  | None => false
  end.

(** [a || b] on strings that may be absent, with a string fallback. *)
Definition or_else (o : option string) (fallback : string) : string :=
  match o with
  | Some s => if truthy s then s else fallback
  | None => fallback
  end.

(** [a || b] where [b] may itself be absent. *)
Definition or_opt (a b : option string) : option string :=
  if truthy_opt a then a else b.

(** [a ?? b]: only [null] and [undefined] fall through. *)
Definition nullish (o : option string) (fallback : string) : string :=
  match o with
  | Some s => s
  | None => fallback
  end.

(** [s.startsWith(p)]. *)
Definition startsWith (s p : string) : bool := String.prefix p s.

(** [s.split(sep)] for a separator of one character.  The result always
    has at least one segment. *)
Fixpoint split (sep : ascii) (s : string) : list string :=
  match s with
  | EmptyString => [EmptyString]
  | String c s' =>
      if Ascii.eqb c sep then EmptyString :: split sep s'
      else match split sep s' with
           | [] => [String c EmptyString]
           | seg :: segs => String c seg :: segs
           end
  end.

(** [a[i]] on an array: [undefined] out of range. *)
Definition at_index {A : Type} (l : list A) (i : nat) : option A :=
  nth_error l i.

(** The rest of [s] after its first [n] characters. *)
Fixpoint drop (n : nat) (s : string) : string :=
  match n, s with
  | O, _ => s
  | S _, EmptyString => EmptyString
  | S n', String _ s' => drop n' s'
  end.

(** [s.replace(pat, rep)] with a string pattern: only the first occurrence
    of [pat] is replaced.  ([rep] is inserted as it is; the callers'
    replacement holds no [$].) *)
Fixpoint replace (pat rep s : string) : string :=
  if String.prefix pat s then rep ++ drop (String.length pat) s
  else match s with
       | EmptyString => EmptyString
       | String c s' => String c (replace pat rep s')
       end.

(** [s.replace(/c/g, rep)] for a pattern of one literal character. *)
Fixpoint replaceAllChar (c : ascii) (rep : string) (s : string) : string :=
  match s with
  | EmptyString => EmptyString
  | String d s' =>
      (if Ascii.eqb d c then rep else String d EmptyString)
        ++ replaceAllChar c rep s'
  end.

(** [a.join(sep)]. *)
Definition join (sep : string) (l : list string) : string :=
  String.concat sep l.

(** [s.substring(0, n)]. *)
Definition substring0 (n : nat) (s : string) : string :=
  String.substring 0 n s.

Fixpoint rev (s : string) : string :=
  match s with
  | EmptyString => EmptyString
  | String c s' => rev s' ++ String c EmptyString
  end.

(** White space and line terminators of ECMAScript, as UTF-8 sequences:
    one byte for U+0009..U+000D and U+0020, two for U+00A0, three for
    U+1680, U+2000..U+200A, U+2028, U+2029, U+202F, U+205F, U+3000 and
    U+FEFF. *)
Definition ws1 (c : ascii) : bool :=
  let n := nat_of_ascii c in
  (((9 <=? n) && (n <=? 13)) || (n =? 32))%nat.

Definition ws2 (c1 c2 : ascii) : bool :=
  ((nat_of_ascii c1 =? 194) && (nat_of_ascii c2 =? 160))%nat.

Definition ws3 (c1 c2 c3 : ascii) : bool :=
  let a := nat_of_ascii c1 in
  let b := nat_of_ascii c2 in
  let c := nat_of_ascii c3 in
  (((a =? 225) && (b =? 154) && (c =? 128))
   || ((a =? 226) && (b =? 128)
       && (((128 <=? c) && (c <=? 138)) || (c =? 168) || (c =? 169) || (c =? 175)))
   || ((a =? 226) && (b =? 129) && (c =? 159))
   || ((a =? 227) && (b =? 128) && (c =? 128))
   || ((a =? 239) && (b =? 187) && (c =? 191)))%nat.

(** [s.trimStart()]. *)
Fixpoint trimStart (s : string) : string :=
  match s with
  | EmptyString => EmptyString
  | String c1 s1 =>
      if ws1 c1 then trimStart s1
      else match s1 with
           | EmptyString => s
           | String c2 s2 =>
               if ws2 c1 c2 then trimStart s2
               else match s2 with
                    | EmptyString => s
                    | String c3 s3 =>
                        if ws3 c1 c2 c3 then trimStart s3 else s
                    end
           end
  end.

(** [trimStart] on the reversed string: the same sequences, read from
    their last byte. *)
Fixpoint trimStartRev (s : string) : string :=
  match s with
  | EmptyString => EmptyString
  | String c1 s1 =>
      if ws1 c1 then trimStartRev s1
      else match s1 with
           | EmptyString => s
           | String c2 s2 =>
               if ws2 c2 c1 then trimStartRev s2
               else match s2 with
                    | EmptyString => s
                    | String c3 s3 =>
                        if ws3 c3 c2 c1 then trimStartRev s3 else s
                    end
           end
  end.

(** [s.trimEnd()] and [s.trim()]. *)
Definition trimEnd (s : string) : string := rev (trimStartRev (rev s)).
Definition trim (s : string) : string := trimEnd (trimStart s).

(** The text a template literal gives for an object: [`${obj}`]. *)
Definition object_text : string := "[object Object]".

End JS.

(** ** Values, effects and the host *)

Local Set Warnings "-register-all".

(** A parsed JSON value.  A number is kept as an integer: the handlers only
    test numbers for truthiness and pass them on. *)
Inductive json : Type :=
| JNull
| JBool (b : bool)
| JNum (n : Z)
| JStr (s : string)
| JArr (items : list json)
| JObj (fields : list (string * json)).

(** The result of a call that can throw; [Thrown m] carries the error's
    [message]. *)
Inductive Outcome (A : Type) : Type :=
| Returned (a : A)
| Thrown (message : string).
Arguments Returned {A} a.
Arguments Thrown {A} message.

Record Label : Type := mkLabel {
  name : string;
  description : option string
}.

Record Highlight : Type := mkHighlight {
  h_id : string;
  h_type : string
}.

Record Article : Type := mkArticle {
  id : string;
  content : string;
  title : string;
  labels : list Label;
  highlights : list Highlight;
  existingNote : option Highlight
}.

(** What the [Article] query yields once decoded. *)
Record ArticleData : Type := mkArticleData {
  d_content : string;
  d_title : string;
  d_labels : list Label;
  d_highlights : list Highlight
}.

Record WebhookLabel : Type := mkWebhookLabel {
  wl_id : string;
  wl_name : string;
  wl_color : string
}.

(** An entry of the untyped [labels] array of the payload: an object with a
    [name] field, or anything else ([null], a primitive, an object without
    [name]). *)
Inductive WireLabel : Type :=
| WireObject (l : WebhookLabel)
| WireOther.

Record WebhookLabelPayload : Type := mkLabelPayload {
  lp_labels : option (list WireLabel);
  lp_pageId : option string
}.

(** Of the page payload only [id] is read. *)
Record PagePayload : Type := mkPagePayload {
  page_id : option string
}.

Record WebhookPayload : Type := mkPayload {
  wp_action : string;
  wp_userId : string;
  wp_label : option WebhookLabelPayload;
  wp_page : option PagePayload
}.

(** [process.env]. *)
Record Env : Type := mkEnv {
  OMNIVORE_ANNOTATE_LABEL : option string;
  OMNIVORE_API_KEY : option string;
  OPENAI_PROMPT : option string;
  OPENAI_MODEL : option string;
  OPENAI_SETTINGS : option string
}.

Record Headers : Type := mkHeaders {
  ContentType : string;
  Authorization : string
}.

Record Response : Type := mkResponse {
  body : string;
  status : Z
}.

(** [new Response(text)]: the status defaults to 200. *)
Definition plainResponse (text : string) : Response := mkResponse text 200.

(** The calls a handler makes to its services, in the order it makes
    them.  An Omnivore entry is one [fetch].  A [ChatCompletion] entry is
    one call of [openai.chat.completions.create]: how many HTTP requests
    the client sends for it (it may retry on its own) is the client's
    matter and is not recorded. *)
Inductive Call : Type :=
| ArticleQuery (headers : Headers) (slug : string)
| LabelsQuery (headers : Headers)
| ChatCompletion (settings : json) (prompt : string) (json_schema : bool)
| SetLabels (headers : Headers) (articleID : string) (labels : list json)
| UpdateHighlight (headers : Headers) (highlightId annotation : string)
| CreateHighlight (headers : Headers)
    (type id shortId articleId annotation : string).

(** The services of the host.  Each answers a request the handler sends;
    [uuidv4 n] is the value of the [n]-th call of [uuidv4] of an
    invocation. *)
Record Host : Type := mkHost {
  JSON_parse : string -> Outcome json;
  JSON_stringify : json -> string;
  JSON_stringify_indent2 : json -> string;
  new_OpenAI : Outcome unit;
  chat_completion : json -> string -> bool -> Outcome (option string);
  article_query : Headers -> string -> Outcome ArticleData;
  labels_query : Headers -> Outcome (list Label);
  omnivore_write : Call -> Outcome unit;
  uuidv4 : nat -> string
}.

(** State threaded through a handler: the calls sent so far and the number
    of UUIDs drawn. *)
Record Trace : Type := mkTrace {
  calls : list Call;
  uuids : nat
}.

Definition start : Trace := mkTrace [] 0.

(** An effectful computation: it may send calls, draw UUIDs and throw. *)
Definition Eff (A : Type) : Type := Trace -> Outcome A * Trace.

Definition ret {A : Type} (a : A) : Eff A := fun t => (Returned a, t).

Definition throw {A : Type} (message : string) : Eff A :=
  fun t => (Thrown message, t).

Definition bind {A B : Type} (c : Eff A) (k : A -> Eff B) : Eff B :=
  fun t =>
    match c t with
    | (Returned a, t') => k a t'
    | (Thrown m, t') => (Thrown m, t')
    end.

(** [try { c } catch (error) { handler(error.message) }]. *)
Definition try_catch {A : Type} (c : Eff A) (handler : string -> Eff A) : Eff A :=
  fun t =>
    match c t with
    | (Returned a, t') => (Returned a, t')
    | (Thrown m, t') => handler m t'
    end.

(** The result of a pure call that can throw. *)
Definition lift {A : Type} (o : Outcome A) : Eff A := fun t => (o, t).

(** Send [c]; the host's answer is [o]. *)
Definition send {A : Type} (c : Call) (o : Outcome A) : Eff A :=
  fun t => (o, mkTrace (calls t ++ [c])%list (uuids t)).

Definition draw_uuid (h : Host) : Eff string :=
  fun t => (Returned (uuidv4 h (uuids t)), mkTrace (calls t) (S (uuids t))).

Declare Scope eff_scope.
Delimit Scope eff_scope with eff.
Notation "x <- c ;; k" := (bind c (fun x => k))
  (at level 61, c at next level, right associativity) : eff_scope.
Notation "c ;;; k" := (bind c (fun _ => k))
  (at level 61, right associativity) : eff_scope.
Local Open Scope eff_scope.

(** The response of a handler run from the empty trace. *)
Definition run {A : Type} (c : Eff A) : Outcome A * Trace := c start.

(** ** Code shared by the variants

    These functions have the same text in every variant that has them,
    logging apart. *)

Module Common.

Definition dq : string := String JS.dquote EmptyString.

(** [omnivoreHeaders] of the handlers. *)
Definition omnivoreHeaders (env : Env) : Headers :=
  mkHeaders "application/json" (JS.nullish (OMNIVORE_API_KEY env) "").

(** [process.env.OPENAI_SETTINGS || `{"model":"${model}"}`]. *)
Definition settingsText (env : Env) (default_model : string) : string :=
  let model := JS.or_else (OPENAI_MODEL env) default_model in
  JS.or_else (OPENAI_SETTINGS env)
    ("{" ++ dq ++ "model" ++ dq ++ ":" ++ dq ++ model ++ dq ++ "}").

(** [highlights.find(({ type }) => type === "NOTE")]. *)
Definition findNote (highlights : list Highlight) : option Highlight :=
  find (fun hl => h_type hl =? "NOTE") highlights.

(** The object [article] that [getArticle] builds from the response. *)
Definition articleOf (articleId : string) (d : ArticleData) : Article :=
  {| id := articleId;
     content := d_content d;
     title := d_title d;
     labels := d_labels d;
     highlights := d_highlights d;
     existingNote := findNote (d_highlights d) |}.

Definition getArticle (h : Host) (articleId : string)
    (omnivoreHeaders : Headers) : Eff Article :=
  d <- send (ArticleQuery omnivoreHeaders articleId)
            (article_query h omnivoreHeaders articleId) ;;
  ret (articleOf articleId d).

Definition getLabelDescription (labelName : string) (labels : list Label)
    : option string :=
  match find (fun l => name l =? labelName) labels with
  | Some l => description l
  | None => None
  end.

Definition getAllLabelsFromOmnivore (h : Host) (omnivoreHeaders : Headers)
    : Eff (list Label) :=
  try_catch
    (send (LabelsQuery omnivoreHeaders) (labels_query h omnivoreHeaders))
    (fun m => throw m).

(** [updated] is the text of the reply, which differs between variants. *)
Definition updateAnnotationInOmnivoreArticle (h : Host) (updated : string)
    (articleId annotation : string) (omnivoreHeaders : Headers)
    (existingNote : option Highlight) : Eff Response :=
  match existingNote with
  | None =>
      ret (mkResponse
             ("No existing note found in Omnivore article: " ++ articleId) 404)
  | Some note =>
      try_catch
        (let mutationQuery :=
           UpdateHighlight omnivoreHeaders (h_id note) annotation in
         send mutationQuery (omnivore_write h mutationQuery) ;;;
         ret (plainResponse updated))
        (fun m =>
           ret (mkResponse
                  ("Error adding annotation to Omnivore article: " ++ m) 500))
  end.

Definition addAnnotationToOmnivoreArticle (h : Host)
    (articleId annotation : string) (omnivoreHeaders : Headers)
    : Eff Response :=
  try_catch
    (id <- draw_uuid h ;;
     let shortId := JS.substring0 8 id in
     let mutationQuery :=
       CreateHighlight omnivoreHeaders "NOTE" id shortId articleId annotation in
     send mutationQuery (omnivore_write h mutationQuery) ;;;
     ret (plainResponse "Article annotation added."))
    (fun m =>
       ret (mkResponse
              ("Error adding annotation to Omnivore article: " ++ m) 500)).

Definition applyAnnotationToOmnivoreArticle (h : Host) (updated : string)
    (articleId annotation : string) (omnivoreHeaders : Headers)
    (existingNote : option Highlight) : Eff Response :=
  match existingNote with
  | Some _ =>
      updateAnnotationInOmnivoreArticle h updated articleId annotation
        omnivoreHeaders existingNote
  | None =>
      addAnnotationToOmnivoreArticle h articleId annotation omnivoreHeaders
  end.

Definition addLabelsToOmnivoreArticle (h : Host) (articleId : string)
    (labels : list json) (omnivoreHeaders : Headers) : Eff Response :=
  let addLabelsMutation := SetLabels omnivoreHeaders articleId labels in
  send addLabelsMutation (omnivore_write h addLabelsMutation) ;;;
  ret (plainResponse
         "New tags added to the article and action updated to did: action.").

(** The entries of [body.label?.labels || []] that pass
    [!!label && typeof label === 'object' && 'name' in label]. *)
Fixpoint namedEntries (raw : list WireLabel) : list WebhookLabel :=
  match raw with
  | [] => []
  | WireObject l :: rest => l :: namedEntries rest
  | WireOther :: rest => namedEntries rest
  end.

Definition payloadLabels (body : WebhookPayload) : list WebhookLabel :=
  namedEntries
    match wp_label body with
    | Some lp =>
        match lp_labels lp with
        | Some raw => raw
        | None => []
        end
    | None => []
    end.

(** [labels.filter(...).map(label => label.name)] of the handlers:
    [matchingLabels]. *)
Definition matchingLabels (labels : list WebhookLabel) (annotateLabel : string)
    : list string :=
  map wl_name
    (filter (fun label =>
               (wl_name label =? annotateLabel)
               || JS.startsWith (wl_name label) (annotateLabel ++ ":"))
            labels).

(** [`- ${item}`]: a [null] item would read as the text [null]. *)
Definition bullet (item : option string) : string :=
  "- " ++ match item with
          | Some s => s
          | None => "null"
          end.

(** [.replace(/\\/g, "\\\\").replace(/"/g, '\\"')]. *)
Definition escapeAnnotation (s : string) : string :=
  JS.replaceAllChar JS.dquote ("\" ++ dq)
    (JS.replaceAllChar JS.backslash "\\" s).

(** [description || process.env["OPENAI_PROMPT"] || "Return ..."]. *)
Definition promptWithFallback (env : Env) (description : option string)
    : string :=
  JS.or_else (JS.or_opt description (OPENAI_PROMPT env))
    "Return a tweet-length TL;DR of the following article.".

(** [promptBodyArray]: the note placeholder is the text of an object. *)
Definition promptBodyArray (promptWithFallback : string) (title content : string)
    (existingNote : option Highlight) : list string :=
  [ promptWithFallback;
    "Article title: " ++ title;
    "Article content: " ++ content;
    match existingNote with
    | Some _ => "Existing note: " ++ JS.object_text
    | None => ""
    end ].

End Common.

(** ** [src/api/annotate.ts] *)

Module Annotate.
Import Common.

Record LabelAction : Type := mkLabelAction {
  label : string;
  replacedLabel : string;
  processLabel : option string;
  action : option string;
  prompts : list string;
  la_description : option string;
  done : bool
}.

Definition getLabelAction (env : Env) (annotateLabel : string)
    (matchingLabels : list string) (article : Article) : list LabelAction :=
  map (fun label =>
         let description := getLabelDescription label (labels article) in
         let promptWithFallback := promptWithFallback env description in
         {| label := label;
            replacedLabel := JS.replace (annotateLabel ++ ":") "did:" label;
            processLabel := JS.at_index (JS.split JS.colon label) 0;
            action := JS.at_index (JS.split JS.colon label) 1;
            la_description := description;
            prompts := promptBodyArray promptWithFallback (title article)
                         (content article) (existingNote article);
            done := false |})
      matchingLabels.

(** [label.action === currentAction]. *)
Definition action_is (l : LabelAction) (currentAction : string) : bool :=
  match action l with
  | Some a => a =? currentAction
  | None => false
  end.

(** The value of an arrow function whose body is a block with no [return]
    statement: the statements run, the call gives [undefined]. *)
Definition block_without_return (statement : bool) : option bool := None.

(** How [find] reads the value of its callback. *)
Definition to_boolean (v : option bool) : bool :=
  match v with
  | Some b => b
  | None => false
  end.

(** The callback of [find] is
    [label => { label.action === currentAction && label.done === false }]. *)
Definition resolvedLabelActions (labelActions : list LabelAction)
    (currentAction : string) : option LabelAction :=
  find (fun label =>
          to_boolean
            (block_without_return
               (action_is label currentAction && Bool.eqb (done label) false)))
       labelActions.

Record OpenActions : Type := mkOpenActions {
  hasOpen : bool;
  nextAction : option LabelAction
}.

Definition hasOpenLabelActions (labelActions : list LabelAction) : OpenActions :=
  let undoneAction := find (fun label => Bool.eqb (done label) false) labelActions in
  {| hasOpen := existsb (fun label => Bool.eqb (done label) false) labelActions;
     nextAction := undoneAction |}.

(** The branch the handler takes after [getLabelAction]. *)
Inductive Decision : Type :=
| RunTagGeneration (currentLabelActions : LabelAction)
| RunAnnotation (currentLabelAction : LabelAction)
| NoCurrentAction
| Unhandled.

Definition dispatch (labelActions : list LabelAction) : Decision :=
  match resolvedLabelActions labelActions "tags" with
  | Some currentLabelActions => RunTagGeneration currentLabelActions
  | None =>
      if hasOpen (hasOpenLabelActions labelActions) then
        match nextAction (hasOpenLabelActions labelActions) with
        | Some currentLabelAction => RunAnnotation currentLabelAction
        | None => NoCurrentAction
        end
      else Unhandled
  end.

Definition arrayToPromptGenerator (array : list (option string)) : string :=
  JS.join (String JS.newline "")
    (map bullet
       (filter (fun item =>
                  match item with
                  | Some s => negb (JS.trim s =? "")
                  | None => false
                  end)
               array)).

(** [label.name.split(":")[0] !== annotateLabel]. *)
Definition outsideNamespace (annotateLabel : string) (l : Label) : bool :=
  match JS.at_index (JS.split JS.colon (name l)) 0 with
  | Some first => negb (first =? annotateLabel)
  | None => true
  end.

Definition labelJson (l : Label) : json :=
  JObj [("name", JStr (name l));
        ("description", JStr (JS.or_else (description l) ""))].

Definition labelsToPrompt (h : Host) (labels : list Label)
    (annotateLabel prePrompt : string) (returnJson : bool) : option string :=
  if Nat.eqb (length labels) 0 then None
  else
    let labelsWithoutAnnotationLabel :=
      filter (outsideNamespace annotateLabel) labels in
    if returnJson then
      Some (JSON_stringify h (JArr (map labelJson labelsWithoutAnnotationLabel)))
    else
      let labelString := JS.join ", " (map name labelsWithoutAnnotationLabel) in
      Some (prePrompt ++ " " ++ labelString).

Definition chatgptExample : string :=
  ("tags = [
        {
          " ++ dq ++ "name" ++ dq ++ ": " ++ dq ++ "Tag Name" ++ dq ++ ",
          " ++ dq ++ "description" ++ dq ++ ": " ++ dq ++ "Really short tag description or an empty string" ++ dq ++ "
        },
        {
          " ++ dq ++ "name" ++ dq ++ ": " ++ dq ++ "Gender and Education" ++ dq ++ ",
          " ++ dq ++ "description" ++ dq ++ ": " ++ dq ++ "" ++ dq ++ "
        },
        {
          " ++ dq ++ "name" ++ dq ++ ": " ++ dq ++ "Inclusive Knowledge Preservation" ++ dq ++ ",
          " ++ dq ++ "description" ++ dq ++ ": " ++ dq ++ "Accessibility and long-term preservation of human knowledge" ++ dq ++ "
        }
      ]").

Definition doTagsPrompt (h : Host) : string :=
  ("Generate a list of useful tags that could be added to this article. Proved them as a JSON array of objects with name and description properties.
      ONLY respond with the JSON array.
      Example: ")
  ++ JSON_stringify h (JStr chatgptExample) ++
  ("
      Please keep with the existing taxonomy and use the same language as the existing tags. Donâ€™t have multiple tags referring to the same topic. Please reuse existing tags if they are similar.
      Although as I'm an artist, I'm always looking for meaningful connections and metaphors. So if a tag falls outside of the existing structure but makes sense in the context of the article, add it as a new tag.
      ONLY respond with the JSON array!").

(** The tags of a completion:
    [content?.trim().split("\n").map(trim).filter(...)]. *)
Definition generatedTags (article : Article) (content : option string)
    : option (list string) :=
  option_map
    (fun c =>
       filter (fun tag =>
                 JS.truthy tag
                 && negb (existsb (fun existing => name existing =? tag)
                            (labels article)))
         (map JS.trim (JS.split JS.newline (JS.trim c))))
    content.

Definition noNewTags : Response := mkResponse "No new tags generated." 200.

(** [prompt] of the tags branch. *)
Definition tagsPrompt (h : Host) (annotateLabel : string) (article : Article)
    (currentLabelActions : LabelAction) (allLabels : list Label) : string :=
  let articleLabelsPrompt :=
    labelsToPrompt h (labels article) annotateLabel "Existing article tags: " true in
  let allLabelsPrompt :=
    labelsToPrompt h allLabels annotateLabel "All labels in Omnivore: " true in
  arrayToPromptGenerator
    ([Some (doTagsPrompt h)] ++ map Some (prompts currentLabelActions)
       ++ [articleLabelsPrompt; allLabelsPrompt])%list.

(** The branch of [if (currentLabelActions)]. *)
Definition tagsFlow (h : Host) (omnivoreHeaders : Headers)
    (annotateLabel settings : string) (article : Article)
    (currentLabelActions : LabelAction) : Eff Response :=
  allLabels <- getAllLabelsFromOmnivore h omnivoreHeaders ;;
  let prompt :=
    tagsPrompt h annotateLabel article currentLabelActions allLabels in
  parsed <- lift (JSON_parse h settings) ;;
  content <- send (ChatCompletion parsed prompt true)
                  (chat_completion h parsed prompt true) ;;
  match generatedTags article content with
  | None => ret noNewTags
  | Some tags =>
      if Nat.eqb (length tags) 0 then ret noNewTags
      else
        let newLabels :=
          (map name (labels article) ++ tags
             ++ [replacedLabel currentLabelActions])%list in
        addLabelsToOmnivoreArticle h (id article) (map JStr newLabels)
          omnivoreHeaders ;;;
        ret (mkResponse
               "New tags added to the article and action updated to did: action."
               200)
  end.

(** [prompt] of the annotation branch. *)
Definition annotationPrompt (currentLabelAction : LabelAction) : string :=
  arrayToPromptGenerator (map Some (prompts currentLabelAction)).

(** The branch of [else if (hasOpenLabelActions().hasOpen)], once
    [currentLabelAction] is known. *)
Definition annotationFlow (h : Host) (omnivoreHeaders : Headers)
    (settings : string) (article : Article)
    (currentLabelAction : LabelAction) : Eff Response :=
  let prompt := annotationPrompt currentLabelAction in
  parsed <- lift (JSON_parse h settings) ;;
  content <- send (ChatCompletion parsed prompt false)
                  (chat_completion h parsed prompt false) ;;
  let generatedResponse :=
    option_map (fun c => escapeAnnotation (JS.trim c)) content in
  match generatedResponse with
  | Some annotation =>
      if JS.truthy annotation then
        applyAnnotationToOmnivoreArticle h "Article annotation updated."
          (id article) annotation omnivoreHeaders (existingNote article) ;;;
        ret (mkResponse "Annotation applied to the article." 200)
      else ret (mkResponse "No generated response from OpenAI." 500)
  | None => ret (mkResponse "No generated response from OpenAI." 500)
  end.

(** The default export: [req] is the outcome of [req.json()]. *)
Definition handler (env : Env) (h : Host) (req : Outcome WebhookPayload)
    : Eff Response :=
  try_catch
    (let annotateLabel := JS.nullish (OMNIVORE_ANNOTATE_LABEL env) "do" in
     body <- lift req ;;
     let labels := payloadLabels body in
     if Nat.eqb (length labels) 0 then
       ret (mkResponse "No labels found in the webhook payload." 400)
     else
       let matchingLabels := matchingLabels labels annotateLabel in
       if Nat.eqb (length matchingLabels) 0 then
         ret (mkResponse
                ("No '" ++ annotateLabel ++ "' labels found. Expected at least one '"
                   ++ annotateLabel ++ "' or '" ++ annotateLabel ++ ":*' label.")
                400)
       else
         let articleId :=
           match wp_label body with
           | Some lp => lp_pageId lp
           | None => None
           end in
         match articleId with
         | Some articleId =>
             if JS.truthy articleId then
               let omnivoreHeaders := omnivoreHeaders env in
               article <- getArticle h articleId omnivoreHeaders ;;
               let labelActions :=
                 getLabelAction env annotateLabel matchingLabels article in
               let settings := settingsText env "gpt-4-turbo-preview" in
               lift (new_OpenAI h) ;;;
               match dispatch labelActions with
               | RunTagGeneration currentLabelActions =>
                   tagsFlow h omnivoreHeaders annotateLabel settings article
                     currentLabelActions
               | RunAnnotation currentLabelAction =>
                   annotationFlow h omnivoreHeaders settings article
                     currentLabelAction
               | NoCurrentAction =>
                   ret (mkResponse "No current label action found." 400)
               | Unhandled =>
                   ret (mkResponse ("Unhandled action: " ++ wp_action body) 400)
               end
             else throw "No article ID found in the webhook payload."
         | None => throw "No article ID found in the webhook payload."
         end)
    (fun m =>
       ret (mkResponse ("Error processing Omnivore webhook: " ++ m) 500)).

End Annotate.

(** ** The verbose variant: first file of [src/unnamed/part_000] *)

Module Verbose.
Import Common.

(** This variant's [LabelAction] has no [done] field. *)
Record LabelAction : Type := mkLabelAction {
  label : string;
  replacedLabel : string;
  processLabel : option string;
  action : option string;
  prompts : list string;
  la_description : option string
}.

Definition getLabelAction (env : Env) (matchingLabels : list string)
    (article : Article) (annotateLabel : string) : list LabelAction :=
  map (fun label =>
         let description := getLabelDescription label (labels article) in
         let promptWithFallback := promptWithFallback env description in
         {| label := label;
            replacedLabel := JS.replace (annotateLabel ++ ":") "did:" label;
            processLabel := JS.at_index (JS.split JS.colon label) 0;
            action := JS.at_index (JS.split JS.colon label) 1;
            la_description := description;
            prompts := promptBodyArray promptWithFallback (title article)
                         (content article) (existingNote article) |})
      matchingLabels.

Definition action_is (l : LabelAction) (currentAction : string) : bool :=
  match action l with
  | Some a => a =? currentAction
  | None => false
  end.

Record Resolved : Type := mkResolved {
  found : bool;
  r_action : option LabelAction
}.

Definition resolvedLabelActions (currentAction : string)
    (myLabelAction : list LabelAction) : Resolved :=
  let matchingAction :=
    find (fun label => action_is label currentAction) myLabelAction in
  {| found := match matchingAction with Some _ => true | None => false end;
     r_action := matchingAction |}.

(** [label.done]: the objects built by [getLabelAction] have no such
    property, the read gives [undefined]. *)
Definition done (l : LabelAction) : option bool := None.

(** [v === false]. *)
Definition strictly_false (v : option bool) : bool :=
  match v with
  | Some false => true
  | _ => false
  end.

Record OpenActions : Type := mkOpenActions {
  hasOpen : bool;
  nextAction : option LabelAction
}.

Definition hasOpenLabelActions (myLabelAction : list LabelAction) : OpenActions :=
  let undoneAction :=
    find (fun label => strictly_false (done label)) myLabelAction in
  {| hasOpen := existsb (fun label => strictly_false (done label)) myLabelAction;
     nextAction := undoneAction |}.

Inductive Decision : Type :=
| RunTagGeneration (currentLabelActions : option LabelAction)
| RunAnnotation (currentLabelAction : LabelAction)
| NoCurrentAction
| Unhandled.

Definition dispatch (labelActions : list LabelAction) : Decision :=
  let r := resolvedLabelActions "tags" labelActions in
  if found r then RunTagGeneration (r_action r)
  else if hasOpen (hasOpenLabelActions labelActions) then
    match nextAction (hasOpenLabelActions labelActions) with
    | Some currentLabelAction => RunAnnotation currentLabelAction
    | None => NoCurrentAction
    end
  else Unhandled.

Definition arrayToPromptGenerator (array : list (option string)) : string :=
  JS.join (String JS.newline "")
    (map bullet
       (filter (fun item =>
                  match item with
                  | Some _ => true
                  | None => false
                  end)
               array)).

Definition labelJson (l : Label) : json :=
  JObj [("name", JStr (name l));
        ("description", JStr (JS.or_else (description l) ""))].

Definition labelsToPrompt (h : Host) (labels : list Label)
    (annotateLabel prePrompt : string) (returnJson : bool) : option string :=
  if Nat.eqb (length labels) 0 then None
  else
    let labelsWithoutAnnotationLabel :=
      filter (fun label => negb (JS.startsWith (name label) annotateLabel))
        labels in
    if Nat.eqb (length labelsWithoutAnnotationLabel) 0 then None
    else if returnJson then
      Some (prePrompt ++ " "
              ++ JSON_stringify_indent2 h
                   (JArr (map labelJson labelsWithoutAnnotationLabel)))
    else
      let labelString := JS.join ", " (map name labelsWithoutAnnotationLabel) in
      Some (prePrompt ++ " " ++ labelString).

Definition tagExample (name description : string) : json :=
  JObj [("name", JStr name); ("description", JStr description)].

Definition chatgptExample : json :=
  JObj [("tags",
         JArr [ tagExample "Tag Name"
                  "Really short tag description or an empty string";
                tagExample "Gender and Education" "";
                tagExample "Inclusive Knowledge Preservation"
                  "Accessibility and long-term preservation of human knowledge" ])].

Definition doTagsPrompt (h : Host) : string :=
  ("Generate a list of useful tags that could be added to this article. Proved them as a JSON array of objects with name and description properties.
      ONLY respond with the JSON array.
      Example: ")
  ++ JSON_stringify_indent2 h chatgptExample ++
  ("
      Please keep with the existing taxonomy and use the same language as the existing tags. Don’t have multiple tags referring to the same topic. Please reuse existing tags if they are similar.
      Although as I'm an artist, I'm always looking for meaningful connections and metaphors. So if a tag falls outside of the existing structure but makes sense in the context of the article, add it as a new tag.
      ONLY respond with the JSON array!").

(** Truthiness of a parsed value. *)
Definition json_truthy (v : json) : bool :=
  match v with
  | JNull => false
  | JBool b => b
  | JNum n => negb (Z.eqb n 0)
  | JStr s => JS.truthy s
  | JArr _ => true
  | JObj _ => true
  end.

(** [o[key]] on the fields of a parsed object (its keys are distinct). *)
Fixpoint field (key : string) (fields : list (string * json)) : option json :=
  match fields with
  | [] => None
  | (k, v) :: rest => if k =? key then Some v else field key rest
  end.

(** [v.key] on a truthy parsed value: a field of an object, the [length]
    of an array or a string, [undefined] otherwise. *)
Definition get_prop (v : json) (key : string) : option json :=
  match v with
  | JObj fields => field key fields
  | JArr items =>
      if key =? "length" then Some (JNum (Z.of_nat (length items))) else None
  | JStr s =>
      if key =? "length" then Some (JNum (Z.of_nat (String.length s))) else None
  | _ => None
  end.

(** [v === 0] on the value of a property read. *)
Definition is_zero (v : option json) : bool :=
  match v with
  | Some (JNum n) => Z.eqb n 0
  | _ => false
  end.

(** A byte that continues a UTF-8 sequence. *)
Definition continuation (c : ascii) : bool :=
  let n := nat_of_ascii c in ((128 <=? n) && (n <? 192))%nat.

(** The characters of a string, as its iterator yields them. *)
Fixpoint characters (s : string) : list string :=
  match s with
  | EmptyString => []
  | String c s' =>
      match characters s' with
      | next :: rest =>
          match s' with
          | String c' _ =>
              if continuation c' then (String c next) :: rest
              else String c EmptyString :: next :: rest
          | EmptyString => [String c EmptyString]
          end
      | [] => [String c EmptyString]
      end
  end.

(** The message of the [TypeError] of spreading a value that is not
    iterable (the engine's wording). *)
Definition not_iterable : string := "generatedTags.tags is not iterable".

(** [...v] inside an array literal. *)
Definition spread (v : option json) : Outcome (list json) :=
  match v with
  | Some (JArr items) => Returned items
  | Some (JStr s) => Returned (map JStr (characters s))
  | _ => Thrown not_iterable
  end.

(** An article label as the object the query returned. *)
Definition labelObject (l : Label) : json :=
  JObj [("name", JStr (name l));
        ("description",
         match description l with
         | Some d => JStr d
         | None => JNull
         end)].

(** The message of reading [prompts] of [null] (the engine's wording). *)
Definition null_read : string :=
  "Cannot read properties of null (reading 'prompts')".

(** [prompt] of the tags branch. *)
Definition tagsPrompt (h : Host) (annotateLabel : string) (article : Article)
    (currentLabelActions : LabelAction) (allLabels : list Label) : string :=
  let articleLabelsPrompt :=
    labelsToPrompt h (labels article) annotateLabel "Existing article tags: " true in
  let allLabelsPrompt :=
    labelsToPrompt h allLabels annotateLabel "All labels in Omnivore: " true in
  arrayToPromptGenerator
    ([Some (doTagsPrompt h)] ++ map Some (prompts currentLabelActions)
       ++ [articleLabelsPrompt; allLabelsPrompt])%list.

(** The branch of [if (found)]. *)
Definition tagsFlow (h : Host) (omnivoreHeaders : Headers)
    (annotateLabel settings : string) (article : Article)
    (action : option LabelAction) : Eff Response :=
  let currentLabelActions := action in
  allLabels <- getAllLabelsFromOmnivore h omnivoreHeaders ;;
  match currentLabelActions with
  | None => throw null_read
  | Some currentLabelActions =>
      let prompt :=
        tagsPrompt h annotateLabel article currentLabelActions allLabels in
      lift (new_OpenAI h) ;;;
      parsed <- lift (JSON_parse h settings) ;;
      response <- send (ChatCompletion parsed prompt true)
                       (chat_completion h parsed prompt true) ;;
      match response with
      | Some response =>
          if JS.truthy response then
            generatedTags <- lift (JSON_parse h response) ;;
            if negb (json_truthy generatedTags)
               || is_zero (get_prop generatedTags "length")
            then ret (mkResponse "No new tags generated." 200)
            else
              tags <- lift (spread (get_prop generatedTags "tags")) ;;
              let newLabels :=
                (map labelObject (labels article) ++ tags
                   ++ [JObj [("name", JStr (replacedLabel currentLabelActions))]])%list in
              addLabelsToOmnivoreArticle h (id article) newLabels
                omnivoreHeaders ;;;
              ret (mkResponse
                     "New tags added to the article and action updated to did: action."
                     200)
          else ret (mkResponse "No response from OpenAI." 500)
      | None => ret (mkResponse "No response from OpenAI." 500)
      end
  end.

(** [prompt] of the annotation branch. *)
Definition annotationPrompt (currentLabelAction : LabelAction) : string :=
  arrayToPromptGenerator (map Some (prompts currentLabelAction)).

(** The branch of [else if (hasOpenLabelActions(labelActions).hasOpen)],
    once [currentLabelAction] is known. *)
Definition annotationFlow (h : Host) (omnivoreHeaders : Headers)
    (settings : string) (article : Article)
    (currentLabelAction : LabelAction) : Eff Response :=
  let prompt := annotationPrompt currentLabelAction in
  lift (new_OpenAI h) ;;;
  parsed <- lift (JSON_parse h settings) ;;
  content <- send (ChatCompletion parsed prompt false)
                  (chat_completion h parsed prompt false) ;;
  let generatedResponse :=
    option_map (fun c => escapeAnnotation (JS.trim c)) content in
  match generatedResponse with
  | Some annotation =>
      if JS.truthy annotation then
        applyAnnotationToOmnivoreArticle h "Article annotation updated."
          (id article) annotation omnivoreHeaders (existingNote article) ;;;
        ret (mkResponse "Annotation applied to the article." 200)
      else ret (mkResponse "No generated response from OpenAI." 500)
  | None => ret (mkResponse "No generated response from OpenAI." 500)
  end.

(** The default export; [requestId] is drawn before the [try]. *)
Definition handler (env : Env) (h : Host) (req : Outcome WebhookPayload)
    : Eff Response :=
  requestId <- draw_uuid h ;;
  try_catch
    (let annotateLabel := JS.nullish (OMNIVORE_ANNOTATE_LABEL env) "do" in
     body <- lift req ;;
     let labels := payloadLabels body in
     if Nat.eqb (length labels) 0 then
       ret (mkResponse "No labels found in the webhook payload." 400)
     else
       let matchingLabels := matchingLabels labels annotateLabel in
       if Nat.eqb (length matchingLabels) 0 then
         ret (mkResponse
                ("No '" ++ annotateLabel ++ "' labels found. Expected at least one '"
                   ++ annotateLabel ++ "' or '" ++ annotateLabel ++ ":*' label.")
                400)
       else
         let articleId :=
           match wp_label body with
           | Some lp => lp_pageId lp
           | None => None
           end in
         match articleId with
         | Some articleId =>
             if JS.truthy articleId then
               let omnivoreHeaders := omnivoreHeaders env in
               article <- getArticle h articleId omnivoreHeaders ;;
               let labelActions :=
                 getLabelAction env matchingLabels article annotateLabel in
               let settings := settingsText env "gpt-4o-2024-08-06" in
               match dispatch labelActions with
               | RunTagGeneration action =>
                   tagsFlow h omnivoreHeaders annotateLabel settings article
                     action
               | RunAnnotation currentLabelAction =>
                   annotationFlow h omnivoreHeaders settings article
                     currentLabelAction
               | NoCurrentAction =>
                   ret (mkResponse "No current label action found." 400)
               | Unhandled =>
                   ret (mkResponse ("Unhandled action: " ++ wp_action body) 400)
               end
             else throw "No article ID found in the webhook payload."
         | None => throw "No article ID found in the webhook payload."
         end)
    (fun m =>
       ret (mkResponse ("Error processing Omnivore webhook: " ++ m) 500)).

End Verbose.

(** ** The legacy variant: second file of [src/unnamed/part_000] *)

Module Legacy.
Import Common.

Definition arrayToPromptGenerator (array : list (option string)) : string :=
  JS.join (String JS.newline "")
    (map bullet
       (filter (fun item =>
                  match item with
                  | Some s => negb (JS.trim s =? "")
                  | None => false
                  end)
               array)).

(** [name.split(":")[0] === annotateLabel]. *)
Definition inNamespace (annotateLabel : string) (l : Label) : bool :=
  match JS.at_index (JS.split JS.colon (name l)) 0 with
  | Some first => first =? annotateLabel
  | None => false
  end.

Definition labelsToPrompt (labels : list Label)
    (annotateLabel prePrompt : string) : option string :=
  if Nat.eqb (length labels) 0 then None
  else
    let labelsWithoutAnnotationLabel :=
      filter (fun label => negb (inNamespace annotateLabel label)) labels in
    let labelString := JS.join ", " (map name labelsWithoutAnnotationLabel) in
    Some (prePrompt ++ " " ++ labelString).

Definition doTagsPrompt : string :=
  ("Generate a list of useful tags that could be added to this article. Only provide the list of tags, one per line. ").

Definition generatedTags (articleLabels : list Label) (content : option string)
    : option (list string) :=
  option_map
    (fun c =>
       filter (fun tag =>
                 JS.truthy tag
                 && negb (existsb (fun existing => name existing =? tag)
                            articleLabels))
         (map JS.trim (JS.split JS.newline (JS.trim c))))
    content.

Definition noNewTags : Response := mkResponse "No new tags generated." 200.

(** [prompt] of the tags branch. *)
Definition tagsPrompt (annotateLabel : string) (articleLabels : list Label)
    (promptBodyArray : list string) (allLabels : list Label) : string :=
  let articleLabelsPrompt :=
    labelsToPrompt articleLabels annotateLabel "Existing article tags: " in
  let allLabelsPrompt :=
    labelsToPrompt allLabels annotateLabel "All labels in Omnivore: " in
  arrayToPromptGenerator
    ([Some doTagsPrompt] ++ map Some promptBodyArray
       ++ [articleLabelsPrompt; allLabelsPrompt])%list.

(** The branch of [if (body.action === "do:tags")].  The array [labels] is
    built and not used: the call passes [generatedTags]. *)
Definition tagsFlow (h : Host) (omnivoreHeaders : Headers)
    (annotateLabel settings articleId didAction : string)
    (article : Article) (promptBodyArray : list string) : Eff Response :=
  let articleLabels := labels article in
  allLabels <- getAllLabelsFromOmnivore h omnivoreHeaders ;;
  let prompt :=
    tagsPrompt annotateLabel articleLabels promptBodyArray allLabels in
  parsed <- lift (JSON_parse h settings) ;;
  content <- send (ChatCompletion parsed prompt false)
                  (chat_completion h parsed prompt false) ;;
  match generatedTags articleLabels content with
  | None => ret noNewTags
  | Some generatedTags =>
      if Nat.eqb (length generatedTags) 0 then ret noNewTags
      else
        let labels :=
          (map name articleLabels ++ generatedTags ++ [didAction])%list in
        addLabelsToOmnivoreArticle h articleId (map JStr generatedTags)
          omnivoreHeaders ;;;
        ret (mkResponse
               "New tags added to the article and action updated to did: action."
               200)
  end.

(** The branch of [else if (body.action.startsWith("do:"))]. *)
Definition annotationFlow (h : Host) (omnivoreHeaders : Headers)
    (settings articleId : string) (article : Article)
    (promptBodyArray : list string) : Eff Response :=
  let prompt := arrayToPromptGenerator (map Some promptBodyArray) in
  parsed <- lift (JSON_parse h settings) ;;
  content <- send (ChatCompletion parsed prompt false)
                  (chat_completion h parsed prompt false) ;;
  let generatedResponse :=
    option_map (fun c => escapeAnnotation (JS.trim c)) content in
  match generatedResponse with
  | Some annotation =>
      if JS.truthy annotation then
        applyAnnotationToOmnivoreArticle h "Article annotation added."
          articleId annotation omnivoreHeaders (existingNote article) ;;;
        ret (mkResponse "Annotation applied to the article." 200)
      else ret (mkResponse "No generated response from OpenAI." 500)
  | None => ret (mkResponse "No generated response from OpenAI." 500)
  end.

(** [body.label?.pageId || body.page?.id]. *)
Definition articleIdOf (body : WebhookPayload) : option string :=
  JS.or_opt
    match wp_label body with
    | Some lp => lp_pageId lp
    | None => None
    end
    match wp_page body with
    | Some page => page_id page
    | None => None
    end.

(** The default export. *)
Definition handler (env : Env) (h : Host) (req : Outcome WebhookPayload)
    : Eff Response :=
  try_catch
    (let annotateLabel := JS.nullish (OMNIVORE_ANNOTATE_LABEL env) "do" in
     body <- lift req ;;
     if negb (JS.startsWith (wp_action body) "do") then
       ret (mkResponse "Not a 'do:' action, ignoring." 200)
     else
       match articleIdOf body with
       | Some articleId =>
           if JS.truthy articleId then
             let didAction := JS.replace "do:" "did:" (wp_action body) in
             let omnivoreHeaders := omnivoreHeaders env in
             article <- getArticle h articleId omnivoreHeaders ;;
             let promptFromLabel :=
               match find (inNamespace annotateLabel) (labels article) with
               | Some l => description l
               | None => None
               end in
             let promptFromLabelWithFallback :=
               promptWithFallback env promptFromLabel in
             let promptBodyArray :=
               promptBodyArray promptFromLabelWithFallback (title article)
                 (content article) (existingNote article) in
             let settings := settingsText env "gpt-4-turbo-preview" in
             lift (new_OpenAI h) ;;;
             if wp_action body =? "do:tags" then
               tagsFlow h omnivoreHeaders annotateLabel settings articleId
                 didAction article promptBodyArray
             else if JS.startsWith (wp_action body) "do:" then
               annotationFlow h omnivoreHeaders settings articleId article
                 promptBodyArray
             else
               ret (mkResponse ("Unhandled action: " ++ wp_action body) 400)
           else throw "No article ID found in the webhook payload."
       | None => throw "No article ID found in the webhook payload."
       end)
    (fun m =>
       ret (mkResponse ("Error processing Omnivore webhook: " ++ m) 500)).

End Legacy.

(** ** Terms of the specification *)

(** [c] occurs in [s]. *)
Fixpoint contains (c : ascii) (s : string) : bool :=
  match s with
  | EmptyString => false
  | String d s' => Ascii.eqb d c || contains c s'
  end.

(** [pat] occurs in [s] at offset [n]. *)
Definition occurs_at (pat s : string) (n : nat) : Prop :=
  exists pre post, s = pre ++ pat ++ post /\ String.length pre = n.

(** A value that [||] skips: absent or the empty string. *)
Definition falsy (o : option string) : Prop := o = None \/ o = Some "".

(** [kept] holds the elements of [l] that satisfy [keep], in the order
    and with the repetitions they have in [l]. *)
Inductive Keeping {A : Type} (keep : A -> Prop) : list A -> list A -> Prop :=
| Keeping_nil : Keeping keep [] []
| Keeping_take x l kept :
    keep x -> Keeping keep l kept -> Keeping keep (x :: l) (x :: kept)
| Keeping_skip x l kept :
    ~ keep x -> Keeping keep l kept -> Keeping keep (x :: l) kept.

(** A label name qualifies for the trigger [T]: it is [T] or starts with
    [T:]. *)
Definition qualifies (T n : string) : Prop :=
  n = T \/ exists rest, n = T ++ ":" ++ rest.

(** [p] is the part of [n] before its first colon (all of [n] when it has
    none). *)
Definition beforeFirstColon (n p : string) : Prop :=
  contains JS.colon p = false /\ (n = p \/ exists rest, n = p ++ ":" ++ rest).

(** The prompt assembler in the words of the specification: drop [null]
    and fragments empty after trimming, prefix the others with a dash and
    a space, separate them by one newline. *)
Fixpoint assemble (fragments : list (option string)) : string :=
  match fragments with
  | [] => ""
  | None :: rest => assemble rest
  | Some s :: rest =>
      if JS.trim s =? "" then assemble rest
      else match assemble rest with
           | EmptyString => "- " ++ s
           | tail => "- " ++ s ++ String JS.newline tail
           end
  end.

(** The labels a list of calls writes with [setLabels]. *)
Fixpoint writtenLabels (sent : list Call) : list (list json) :=
  match sent with
  | [] => []
  | SetLabels _ _ labels :: rest => labels :: writtenLabels rest
  | _ :: rest => writtenLabels rest
  end.

(** The name a written label carries: the string itself, or the [name]
    field of an object. *)
Definition writtenName (v : json) : option string :=
  match v with
  | JStr s => Some s
  | JObj fields =>
      match Verbose.field "name" fields with
      | Some (JStr s) => Some s
      | _ => None
      end
  | _ => None
  end.

(** A status of the 5xx class. *)
Definition is5xx (r : Response) : Prop := (500 <= status r <= 599)%Z.

(** [op] is the second of the segments that the colons of [n] delimit,
    and is undefined when [n] has no colon. *)
Definition secondSegment (n : string) (op : option string) : Prop :=
  (contains JS.colon n = false -> op = None)
  /\ (forall pre mid tail,
        n = pre ++ ":" ++ mid ++ tail ->
        contains JS.colon pre = false -> contains JS.colon mid = false ->
        tail = "" \/ (exists rest, tail = ":" ++ rest) ->
        op = Some mid).

(** [op] is all of [n] after its first colon, and the empty string when
    [n] has no colon. *)
Definition afterFirstColon (n : string) (op : option string) : Prop :=
  (contains JS.colon n = false -> op = Some "")
  /\ (forall pre rest,
        n = pre ++ ":" ++ rest -> contains JS.colon pre = false ->
        op = Some rest).

(** [d] is the description of the first label of [labels] named [n], and
    is undefined when there is none. *)
Definition describes (labels : list Label) (n : string) (d : option string)
    : Prop :=
  (forall pre l post,
     labels = (pre ++ l :: post)%list -> name l = n ->
     (forall x, In x pre -> name x <> n) -> d = description l)
  /\ ((forall x, In x labels -> name x <> n) -> d = None).

(** [t] is the first of [d], [p] and [literal] that is not empty. *)
Definition firstNonEmpty (d p : option string) (literal t : string) : Prop :=
  (forall s, d = Some s -> s <> "" -> t = s)
  /\ (falsy d -> forall s, p = Some s -> s <> "" -> t = s)
  /\ (falsy d -> falsy p -> t = literal).

(** [r] is [s] with its first occurrence of [pat] replaced by [rep], and
    is [s] when [pat] does not occur in it. *)
Definition replacesFirst (pat rep s r : string) : Prop :=
  (forall pre post,
     s = pre ++ pat ++ post ->
     (forall m, m < String.length pre -> ~ occurs_at pat s m) ->
     r = pre ++ rep ++ post)
  /\ ((forall m, ~ occurs_at pat s m) -> r = s).

(** The literal prompt of last resort. *)
Definition fallbackPrompt : string :=
  "Return a tweet-length TL;DR of the following article.".

(** [note] is the first highlight of type [NOTE] of [highlights]. *)
Definition firstNote (highlights : list Highlight) (note : Highlight) : Prop :=
  exists before after,
    highlights = (before ++ note :: after)%list
    /\ h_type note = "NOTE"
    /\ forall x, In x before -> h_type x <> "NOTE".

(** A completion that is [null] or the empty string. *)
Definition emptyCompletion (content : option string) : Prop :=
  content = None \/ content = Some "".

(** The number of calls of [openai.chat.completions.create] among the
    calls. *)
Fixpoint completions (sent : list Call) : nat :=
  match sent with
  | [] => 0
  | ChatCompletion _ _ _ :: rest => S (completions rest)
  | _ :: rest => completions rest
  end.

(** The number of Omnivore mutations among the calls. *)
Fixpoint mutations (sent : list Call) : nat :=
  match sent with
  | [] => 0
  | SetLabels _ _ _ :: rest => S (mutations rest)
  | UpdateHighlight _ _ _ :: rest => S (mutations rest)
  | CreateHighlight _ _ _ _ _ _ :: rest => S (mutations rest)
  | _ :: rest => mutations rest
  end.

(** The note mutations among the calls. *)
Fixpoint noteWrites (sent : list Call) : list Call :=
  match sent with
  | [] => []
  | UpdateHighlight a b c :: rest => UpdateHighlight a b c :: noteWrites rest
  | CreateHighlight a b c d e f :: rest =>
      CreateHighlight a b c d e f :: noteWrites rest
  | _ :: rest => noteWrites rest
  end.

(** Reading an escaped text back: a backslash stands for the character
    that follows it. *)
Fixpoint unescape (s : string) : string :=
  match s with
  | EmptyString => EmptyString
  | String c s' =>
      if Ascii.eqb c JS.backslash then
        match s' with
        | EmptyString => EmptyString
        | String d s'' => String d (unescape s'')
        end
      else String c (unescape s')
  end.

(** The statuses a handler answers with. *)
Definition answered (r : Response) : Prop :=
  (status r = 200 \/ status r = 400 \/ status r = 500)%Z.

(** What one branch of a handler does when run from [t]: it sends the
    calls [new] after those of [t], with at most one call of
    [chat.completions.create] and one mutation among them, [extra] holds of [new], and a response it returns
    has status 200 or 500. *)
Definition branch_ok (c : Eff Response) (t : Trace)
    (extra : list Call -> Prop) : Prop :=
  exists new,
    calls (snd (c t)) = (calls t ++ new)%list
    /\ completions new <= 1 /\ mutations new <= 1 /\ extra new
    /\ match fst (c t) with
       | Returned r => (status r = 200 \/ status r = 500)%Z
       | Thrown _ => True
       end.

(** What an invocation of a handler does: it returns a response of status
    200, 400 or 500, after at most one call of [chat.completions.create]
    and one mutation, and
    [extra] holds of the calls it sent. *)
Definition handler_ok (c : Eff Response) (extra : list Call -> Prop) : Prop :=
  exists r,
    fst (run c) = Returned r /\ answered r
    /\ completions (calls (snd (run c))) <= 1
    /\ mutations (calls (snd (run c))) <= 1
    /\ extra (calls (snd (run c))).

(** ** Sample inputs *)

Definition env_default : Env :=
  {| OMNIVORE_ANNOTATE_LABEL := None;
     OMNIVORE_API_KEY := None;
     OPENAI_PROMPT := None;
     OPENAI_MODEL := None;
     OPENAI_SETTINGS := None |}.

Definition env_with_prompt : Env :=
  {| OMNIVORE_ANNOTATE_LABEL := None;
     OMNIVORE_API_KEY := Some "key";
     OPENAI_PROMPT := Some "Summarise.";
     OPENAI_MODEL := None;
     OPENAI_SETTINGS := None |}.

(** An article with one label and no highlight. *)
Definition data_plain : ArticleData :=
  {| d_content := "Body";
     d_title := "Title";
     d_labels := [mkLabel "x" None; mkLabel "do:tags" (Some "List tags.")];
     d_highlights := [] |}.

(** The same article with a quote highlight and a note. *)
Definition data_noted : ArticleData :=
  {| d_content := "Body";
     d_title := "Title";
     d_labels := [mkLabel "x" None];
     d_highlights := [mkHighlight "h1" "HIGHLIGHT"; mkHighlight "n1" "NOTE"] |}.

Definition article_plain : Article := Common.articleOf "a1" data_plain.
Definition article_noted : Article := Common.articleOf "a1" data_noted.

Definition sample_uuid : string := "123e4567-e89b-42d3-a456-426614174000".

(** A host whose article query gives [d] and whose completion gives
    [content]; every other call succeeds. *)
Definition host_of (d : ArticleData) (content : option string) : Host :=
  {| JSON_parse := fun _ => Returned (JObj []);
     JSON_stringify := fun _ => "[]";
     JSON_stringify_indent2 := fun _ => "[]";
     new_OpenAI := Returned tt;
     chat_completion := fun _ _ _ => Returned content;
     article_query := fun _ _ => Returned d;
     labels_query := fun _ => Returned [mkLabel "x" None; mkLabel "y" None];
     omnivore_write := fun _ => Returned tt;
     uuidv4 := fun _ => sample_uuid |}.

(** A host whose completion is a JSON text that parses to one tag [y]. *)
Definition host_structured : Host :=
  {| JSON_parse := fun _ =>
       Returned (JObj [("tags",
                       JArr [JObj [("name", JStr "y");
                                   ("description", JStr "")]])]);
     JSON_stringify := fun _ => "[]";
     JSON_stringify_indent2 := fun _ => "[]";
     new_OpenAI := Returned tt;
     chat_completion := fun _ _ _ => Returned (Some "{}");
     article_query := fun _ _ => Returned data_plain;
     labels_query := fun _ => Returned [];
     omnivore_write := fun _ => Returned tt;
     uuidv4 := fun _ => sample_uuid |}.

Definition headers_default : Headers := Common.omnivoreHeaders env_default.

(** Actions as the resolvers build them, with one prompt fragment. *)
Definition action_bare : Annotate.LabelAction :=
  Annotate.mkLabelAction "do" "do" (Some "do") None ["Go"] None false.

Definition action_tags : Annotate.LabelAction :=
  Annotate.mkLabelAction "do:tags" "did:tags" (Some "do") (Some "tags")
    ["Go"] None false.

Definition action_tags_verbose : Verbose.LabelAction :=
  Verbose.mkLabelAction "do:tags" "did:tags" (Some "do") (Some "tags")
    ["Go"] None.

(** A label webhook for article [a1] carrying the labels [names]. *)
Definition request_with (action : string) (names : list string)
    : Outcome WebhookPayload :=
  Returned
    {| wp_action := action;
       wp_userId := "u1";
       wp_label :=
         Some {| lp_labels :=
                   Some (map (fun n => WireObject (mkWebhookLabel n n "#fff"))
                           names);
                 lp_pageId := Some "a1" |};
       wp_page := None |}.

(** A payload with the given label entries and page id. *)
Definition payload_with (action : string) (entries : list WireLabel)
    (pageId : option string) : WebhookPayload :=
  {| wp_action := action;
     wp_userId := "u1";
     wp_label := Some {| lp_labels := Some entries; lp_pageId := pageId |};
     wp_page := None |}.

Definition entry (n : string) : WireLabel :=
  WireObject (mkWebhookLabel n n "#fff").

(** A host like [host_of] whose Omnivore mutations fail. *)
Definition host_failing_write (d : ArticleData) (content : option string)
    : Host :=
  {| JSON_parse := fun _ => Returned (JObj []);
     JSON_stringify := fun _ => "[]";
     JSON_stringify_indent2 := fun _ => "[]";
     new_OpenAI := Returned tt;
     chat_completion := fun _ _ _ => Returned content;
     article_query := fun _ _ => Returned d;
     labels_query := fun _ => Returned [mkLabel "x" None; mkLabel "y" None];
     omnivore_write := fun _ => Thrown "fetch failed";
     uuidv4 := fun _ => sample_uuid |}.

(** A host whose completion parses to an array of one tag, not to an
    object with a [tags] field. *)
Definition host_bare_array : Host :=
  {| JSON_parse := fun _ =>
       Returned (JArr [JObj [("name", JStr "y"); ("description", JStr "")]]);
     JSON_stringify := fun _ => "[]";
     JSON_stringify_indent2 := fun _ => "[]";
     new_OpenAI := Returned tt;
     chat_completion := fun _ _ _ => Returned (Some "[...]");
     article_query := fun _ _ => Returned data_plain;
     labels_query := fun _ => Returned [];
     omnivore_write := fun _ => Returned tt;
     uuidv4 := fun _ => sample_uuid |}.

(** Unfolds the combinators of [Eff]. *)
Ltac eff := unfold bind, lift, send, ret, throw, try_catch, draw_uuid.

(** ** Facts about the string primitives *)

Module JSFacts.
Import JS.

Example split_segments : split colon "do:a:b" = ["do"; "a"; "b"].
Proof. reflexivity. Qed.

Example split_empty : split colon "" = [""].
Proof. reflexivity. Qed.

Example split_trailing : split colon "do:" = ["do"; ""].
Proof. reflexivity. Qed.

Example replace_once : replace "do:" "did:" "do:x do:y" = "did:x do:y".
Proof. reflexivity. Qed.

Example trim_ascii :
  trim (String newline "  a b " ++ String newline "") = "a b".
Proof. reflexivity. Qed.

(** A no-break space (U+00A0) before and a thin space (U+2009) after. *)
Example trim_unicode :
  trim (String (ascii_of_nat 194) (String (ascii_of_nat 160) "a")
          ++ String (ascii_of_nat 226)
               (String (ascii_of_nat 128) (String (ascii_of_nat 137) "")))
  = "a".
Proof. reflexivity. Qed.

Example escape_quotes_and_backslashes :
  Common.escapeAnnotation ("a" ++ Common.dq ++ "b")
  = "a\" ++ Common.dq ++ "b".
Proof. reflexivity. Qed.

Example characters_by_code_point :
  Verbose.characters
    (String "a" (String (ascii_of_nat 195) (String (ascii_of_nat 169) "b")))
  = ["a"; String (ascii_of_nat 195) (String (ascii_of_nat 169) ""); "b"].
Proof. reflexivity. Qed.

Lemma truthy_nonempty (s : string) : s <> "" -> truthy s = true.
Proof. destruct s; [contradiction | reflexivity]. Qed.

Lemma append_nil_r (s : string) : s ++ "" = s.
Proof. induction s as [|c s IH]; simpl; [reflexivity | now rewrite IH]. Qed.

Lemma append_assoc (a b c : string) : (a ++ b) ++ c = a ++ b ++ c.
Proof. induction a as [|x a IH]; simpl; [reflexivity | now rewrite IH]. Qed.

Lemma length_append (a b : string) :
  String.length (a ++ b) = String.length a + String.length b.
Proof. induction a as [|x a IH]; simpl; [reflexivity | now rewrite IH]. Qed.

Lemma prefix_spec (p s : string) :
  String.prefix p s = true <-> exists rest, s = p ++ rest.
Proof.
  revert s; induction p as [|c p IH]; intros s.
  - split; intros _; [now exists s | now destruct s].
  - destruct s as [|d s]; simpl.
    + split; [discriminate | intros [r Hr]; discriminate].
    + destruct (ascii_dec c d) as [->|Hcd].
      * rewrite IH. split; intros [r Hr]; exists r; [now rewrite Hr | now injection Hr].
      * split; [discriminate | intros [r Hr]; injection Hr; intros; congruence].
Qed.

Lemma startsWith_spec (s p : string) :
  startsWith s p = true <-> exists rest, s = p ++ rest.
Proof. apply prefix_spec. Qed.

Lemma prefix_append (p r : string) : String.prefix p (p ++ r) = true.
Proof. apply prefix_spec; now exists r. Qed.

Lemma drop_append (p r : string) : drop (String.length p) (p ++ r) = r.
Proof. induction p as [|c p IH]; simpl; [now destruct r | exact IH]. Qed.

Lemma split_not_nil (c : ascii) (s : string) : split c s <> [].
Proof.
  induction s as [|d s IH]; simpl; [discriminate|].
  destruct (Ascii.eqb d c); [discriminate|].
  destruct (split c s); discriminate.
Qed.

Lemma split_without_separator (c : ascii) (s : string) :
  contains c s = false -> split c s = [s].
Proof.
  induction s as [|d s IH]; simpl; [reflexivity|].
  intros H; apply orb_false_iff in H as [Hd Hs].
  rewrite Hd, (IH Hs); reflexivity.
Qed.

Lemma split_at_separator (c : ascii) (p r : string) :
  contains c p = false ->
  split c (p ++ String c r) = p :: split c r.
Proof.
  induction p as [|d p IH]; simpl.
  - intros _; now rewrite Ascii.eqb_refl.
  - intros H; apply orb_false_iff in H as [Hd Hp].
    rewrite Hd, (IH Hp); reflexivity.
Qed.

(** Every string splits at its first occurrence of [c], if it has one. *)
Lemma first_separator (c : ascii) (s : string) :
  contains c s = true ->
  exists p r, s = p ++ String c r /\ contains c p = false.
Proof.
  induction s as [|d s IH]; simpl; [discriminate|].
  destruct (Ascii.eqb d c) eqn:Hd; simpl.
  - intros _; apply Ascii.eqb_eq in Hd as ->. now exists "", s.
  - intros H; destruct (IH H) as (p & r & -> & Hp).
    exists (String d p), r; simpl; now rewrite Hd, Hp.
Qed.

Lemma contains_append (c : ascii) (a b : string) :
  contains c (a ++ b) = contains c a || contains c b.
Proof.
  induction a as [|x a IH]; simpl; [reflexivity|].
  now rewrite IH, orb_assoc.
Qed.

Lemma contains_separator (c : ascii) (p r : string) :
  contains c (p ++ String c r) = true.
Proof.
  rewrite contains_append; simpl.
  rewrite Ascii.eqb_refl; simpl. apply orb_true_r.
Qed.

(** A string splits at its first [c] in one way only. *)
Lemma first_separator_unique (c : ascii) (p q r r' : string) :
  contains c p = false -> contains c q = false ->
  p ++ String c r = q ++ String c r' -> p = q.
Proof.
  revert q; induction p as [|x p IH]; intros [|y q] Hp Hq Heq; simpl in *.
  - reflexivity.
  - injection Heq as <- _. now rewrite Ascii.eqb_refl in Hq.
  - injection Heq as -> _. now rewrite Ascii.eqb_refl in Hp.
  - injection Heq as -> Heq.
    apply orb_false_iff in Hp as [_ Hp].
    apply orb_false_iff in Hq as [_ Hq].
    now rewrite (IH q Hp Hq Heq).
Qed.

Lemma first_segment (n p : string) :
  at_index (split colon n) 0 = Some p <-> beforeFirstColon n p.
Proof.
  unfold beforeFirstColon, at_index.
  destruct (contains colon n) eqn:Hn.
  - destruct (first_separator _ _ Hn) as (q & r & -> & Hq).
    rewrite split_at_separator by assumption; simpl. split.
    + intros [= <-]. split; [assumption | right; now exists r].
    + intros [Hp [Heq | [r' Heq]]].
      * rewrite <- Heq, contains_separator in Hp; discriminate.
      * f_equal. eapply first_separator_unique; eauto.
  - rewrite split_without_separator by assumption; simpl. split.
    + intros [= <-]. split; [assumption | now left].
    + intros [Hp [-> | [r ->]]]; [reflexivity|].
      change (p ++ ":" ++ r) with (p ++ String colon r) in Hn.
      rewrite contains_separator in Hn; discriminate.
Qed.

Lemma second_segment (pre mid tail : string) :
  contains colon pre = false -> contains colon mid = false ->
  tail = "" \/ (exists rest, tail = ":" ++ rest) ->
  at_index (split colon (pre ++ ":" ++ mid ++ tail)) 1 = Some mid.
Proof.
  intros Hpre Hmid Htail.
  change (pre ++ ":" ++ mid ++ tail) with (pre ++ String colon (mid ++ tail)).
  rewrite split_at_separator by assumption.
  change (at_index (pre :: split colon (mid ++ tail)) 1)
    with (at_index (split colon (mid ++ tail)) 0).
  apply first_segment. split; [assumption|].
  destruct Htail as [-> | [rest ->]].
  - left; apply append_nil_r.
  - right; now exists rest.
Qed.

Lemma no_second_segment (s : string) :
  contains colon s = false -> at_index (split colon s) 1 = None.
Proof. intros H; now rewrite split_without_separator. Qed.

Lemma replace_unfold (pat rep s : string) :
  replace pat rep s =
  if String.prefix pat s then rep ++ drop (String.length pat) s
  else match s with
       | EmptyString => EmptyString
       | String c s' => String c (replace pat rep s')
       end.
Proof. destruct s; reflexivity. Qed.

Lemma replace_at_start (pat rep rest : string) :
  replace pat rep (pat ++ rest) = rep ++ rest.
Proof. now rewrite replace_unfold, prefix_append, drop_append. Qed.

Lemma occurs_at_tail (pat s : string) (c : ascii) (m : nat) :
  occurs_at pat s m -> occurs_at pat (String c s) (S m).
Proof.
  intros (pre & post & -> & <-). now exists (String c pre), post.
Qed.

Lemma occurs_at_start (pat s : string) :
  String.prefix pat s = true -> occurs_at pat s 0.
Proof.
  intros H; apply prefix_spec in H as [rest ->]. now exists "", rest.
Qed.

(** [replace] rewrites the first occurrence and nothing else. *)
Lemma replace_first (pat rep pre post : string) :
  (forall m, m < String.length pre -> ~ occurs_at pat (pre ++ pat ++ post) m) ->
  replace pat rep (pre ++ pat ++ post) = pre ++ rep ++ post.
Proof.
  induction pre as [|c pre IH]; intros Hfirst.
  - simpl. apply replace_at_start.
  - rewrite replace_unfold.
    destruct (String.prefix pat (String c pre ++ pat ++ post)) eqn:Hp.
    + exfalso. apply (Hfirst 0); [simpl; lia | now apply occurs_at_start].
    + simpl. f_equal. apply IH.
      intros m Hm Hocc. apply (Hfirst (S m)); [simpl; lia|].
      now apply occurs_at_tail.
Qed.

Lemma replace_absent (pat rep s : string) :
  (forall m, ~ occurs_at pat s m) -> replace pat rep s = s.
Proof.
  induction s as [|c s IH]; intros Habs; rewrite replace_unfold.
  - destruct (String.prefix pat "") eqn:Hp; [|reflexivity].
    exfalso. now apply (Habs 0), occurs_at_start.
  - destruct (String.prefix pat (String c s)) eqn:Hp.
    + exfalso. now apply (Habs 0), occurs_at_start.
    + f_equal. apply IH. intros m Hocc.
      now apply (Habs (S m)), occurs_at_tail.
Qed.

(** A pattern longer than the string occurs nowhere in it. *)
Lemma longer_pattern_absent (pat s : string) (m : nat) :
  String.length s < String.length pat -> ~ occurs_at pat s m.
Proof.
  intros Hlen (pre & post & Heq & _).
  apply (f_equal String.length) in Heq.
  rewrite !length_append in Heq. lia.
Qed.

Lemma substring0_prefix (n : nat) (s : string) :
  exists rest, s = substring0 n s ++ rest.
Proof.
  unfold substring0. revert s; induction n as [|n IH]; intros s.
  - exists s. now destruct s.
  - destruct s as [|c s]; simpl.
    + now exists "".
    + destruct (IH s) as [rest Hr]. exists rest. now rewrite <- Hr.
Qed.

Lemma substring0_length (n : nat) (s : string) :
  n <= String.length s -> String.length (substring0 n s) = n.
Proof.
  unfold substring0. revert s; induction n as [|n IH]; intros s Hn.
  - now destruct s.
  - destruct s as [|c s]; simpl in *; [lia|].
    rewrite IH; [reflexivity | lia].
Qed.

End JSFacts.

(** ** Facts about lists *)

Module ListFacts.

Lemma Keeping_filter {A : Type} (keep : A -> Prop) (f : A -> bool)
    (l : list A) :
  (forall x, f x = true <-> keep x) -> Keeping keep l (filter f l).
Proof.
  intros Hf. induction l as [|x l IH]; simpl.
  - constructor.
  - destruct (f x) eqn:Hx.
    + apply Keeping_take; [now apply Hf | exact IH].
    + apply Keeping_skip; [|exact IH].
      intros Hk; apply Hf in Hk; congruence.
Qed.

(** [Keeping] determines its result. *)
Lemma Keeping_unique {A : Type} (keep : A -> Prop) (l k k' : list A) :
  Keeping keep l k -> Keeping keep l k' -> k = k'.
Proof.
  intros H; revert k'. induction H as [|x l k Hx _ IH|x l k Hx _ IH];
    intros k' H'; inversion H'; subst; try contradiction.
  - reflexivity.
  - f_equal; now apply IH.
  - now apply IH.
Qed.

Lemma Keeping_In {A : Type} (keep : A -> Prop) (l k : list A) :
  Keeping keep l k -> forall x, In x k <-> In x l /\ keep x.
Proof.
  induction 1 as [|x l k Hx _ IH|x l k Hx _ IH]; intros y; simpl.
  - tauto.
  - rewrite IH. split.
    + intros [<- | [Hy Hd]]; tauto.
    + intros [[<- | Hy] Hd]; tauto.
  - rewrite IH. split.
    + tauto.
    + intros [[<- | Hy] Hd]; tauto.
Qed.

Lemma Keeping_map {A B : Type} (f : A -> B) (keepA : A -> Prop)
    (keepB : B -> Prop) (l k : list A) :
  (forall x, keepA x <-> keepB (f x)) ->
  Keeping keepA l k -> Keeping keepB (map f l) (map f k).
Proof.
  intros Hf. induction 1 as [|x l k Hx _ IH|x l k Hx _ IH]; simpl.
  - constructor.
  - apply Keeping_take; [now rewrite <- Hf | exact IH].
  - apply Keeping_skip; [now rewrite <- Hf | exact IH].
Qed.

Lemma Keeping_nil_iff {A : Type} (keep : A -> Prop) (l k : list A) :
  Keeping keep l k -> (k = [] <-> forall x, In x l -> ~ keep x).
Proof.
  intros H. pose proof (Keeping_In keep l k H) as HIn. split.
  - intros -> x Hx Hk. now apply (proj2 (HIn x) (conj Hx Hk)).
  - intros Hnone. destruct k as [|y k]; [reflexivity|].
    destruct (proj1 (HIn y) (or_introl eq_refl)) as [Hy Hk].
    now destruct (Hnone y Hy).
Qed.

Lemma Forall2_map {A B : Type} (P : A -> B -> Prop) (f : A -> B)
    (l : list A) :
  (forall x, In x l -> P x (f x)) -> Forall2 P l (map f l).
Proof.
  induction l as [|x l IH]; intros H; simpl; constructor.
  - apply H. now left.
  - apply IH. intros y Hy. apply H. now right.
Qed.

End ListFacts.

(** ** The label classifier *)

Module Classifier.
Import Common.

Lemma qualifies_decided (T n : string) :
  (n =? T) || JS.startsWith n (T ++ ":") = true <-> qualifies T n.
Proof.
  unfold qualifies. rewrite orb_true_iff, String.eqb_eq, JSFacts.startsWith_spec.
  split; (intros [H | [rest H]]; [now left | right; exists rest]).
  - now rewrite <- JSFacts.append_assoc.
  - now rewrite JSFacts.append_assoc.
Qed.

(** C5. For every label list [L] and trigger [T], [matchingLabels] holds
    exactly the names of the entries whose name is [T] or starts with [T:],
    in the order of [L] and with their repetitions, and it is empty if and
    only if no entry qualifies. *)
Theorem matchingLabels_exact (L : list WebhookLabel) (T : string) :
  Keeping (qualifies T) (map wl_name L) (matchingLabels L T)
  /\ (matchingLabels L T = [] <->
      forall l, In l L -> ~ qualifies T (wl_name l)).
Proof.
  assert (H : Keeping (qualifies T) (map wl_name L) (matchingLabels L T)).
  { unfold matchingLabels.
    apply ListFacts.Keeping_map with (keepA := fun l => qualifies T (wl_name l)).
    - tauto.
    - apply ListFacts.Keeping_filter. intros l. apply qualifies_decided. }
  split; [exact H|].
  rewrite (ListFacts.Keeping_nil_iff _ _ _ H). split.
  - intros Hall l Hl. apply Hall. now apply in_map.
  - intros Hall n Hn. apply in_map_iff in Hn as (l & <- & Hl). now apply Hall.
Qed.

End Classifier.

(** ** The prompt assembler *)

Module Assembler.
Import Common.

Lemma bullets_not_empty (sep : string) (items : list (option string)) :
  JS.join sep (map bullet items) = "" -> items = [].
Proof.
  destruct items as [|x [|y items]]; simpl; [reflexivity | |];
    unfold bullet; simpl; discriminate.
Qed.

(** X12. The assembler of [src/api/annotate.ts] is the assembler of the
    specification. *)
Lemma annotate_assembler_refines (fragments : list (option string)) :
  Annotate.arrayToPromptGenerator fragments = assemble fragments.
Proof.
  unfold Annotate.arrayToPromptGenerator.
  induction fragments as [|[s|] rest IH]; simpl.
  - reflexivity.
  - destruct (JS.trim s =? "") eqn:Hs; simpl; [exact IH|].
    rewrite <- IH. clear IH.
    set (kept := filter _ rest).
    destruct (map bullet kept) as [|b bs] eqn:Hk.
    + reflexivity.
    + destruct (JS.join (String JS.newline "") (b :: bs)) eqn:Hj.
      * rewrite <- Hk in Hj. apply bullets_not_empty in Hj.
        rewrite Hj in Hk. discriminate.
      * reflexivity.
  - exact IH.
Qed.

Lemma legacy_assembler_same (fragments : list (option string)) :
  Legacy.arrayToPromptGenerator fragments
  = Annotate.arrayToPromptGenerator fragments.
Proof. reflexivity. Qed.

(** The example of the specification, on [src/api/annotate.ts]. *)
Lemma annotate_assembler_example :
  Annotate.arrayToPromptGenerator [Some "a"; None; Some ""; Some "b"]
  = "- a" ++ String JS.newline "- b".
Proof. reflexivity. Qed.

(** C2. The assembler of the verbose variant only drops [null]: on the
    example of the specification it keeps the empty fragment as a bullet of
    its own, where the assembler of the specification (and of
    [src/api/annotate.ts]) gives two bullets. *)
Theorem verbose_assembler_keeps_empty_fragment :
  Verbose.arrayToPromptGenerator [Some "a"; None; Some ""; Some "b"]
  = "- a" ++ String JS.newline ("- " ++ String JS.newline "- b")
  /\ assemble [Some "a"; None; Some ""; Some "b"]
     = "- a" ++ String JS.newline "- b"
  /\ Verbose.arrayToPromptGenerator [Some "a"; None; Some ""; Some "b"]
     <> assemble [Some "a"; None; Some ""; Some "b"].
Proof. repeat split. discriminate. Qed.

End Assembler.

(** ** The label action resolver *)

Module Resolver.
Import Common.

Lemma second_segment_spec (n : string) :
  secondSegment n (JS.at_index (JS.split JS.colon n) 1).
Proof.
  split.
  - apply JSFacts.no_second_segment.
  - intros pre mid tail -> Hpre Hmid Htail.
    now apply JSFacts.second_segment.
Qed.

Lemma getLabelDescription_spec (labels : list Label) (n : string) :
  describes labels n (getLabelDescription n labels).
Proof.
  unfold getLabelDescription. split.
  - intros pre l post -> Hl Hpre.
    induction pre as [|x pre IH]; simpl.
    + now rewrite (proj2 (String.eqb_eq _ _) Hl).
    + destruct (name x =? n) eqn:Hx.
      * apply String.eqb_eq in Hx. now destruct (Hpre x (or_introl eq_refl)).
      * apply IH. intros y Hy. apply Hpre. now right.
  - intros Hnone. induction labels as [|x labels IH]; simpl; [reflexivity|].
    destruct (name x =? n) eqn:Hx.
    + apply String.eqb_eq in Hx. now destruct (Hnone x (or_introl eq_refl)).
    + apply IH. intros y Hy. apply Hnone. now right.
Qed.

Lemma promptWithFallback_spec (env : Env) (d : option string) :
  firstNonEmpty d (OPENAI_PROMPT env)
    "Return a tweet-length TL;DR of the following article."
    (promptWithFallback env d).
Proof.
  unfold promptWithFallback, firstNonEmpty, falsy, JS.or_else, JS.or_opt.
  repeat split.
  - intros s -> Hs. destruct s; [contradiction | reflexivity].
  - intros [-> | ->] s Hp Hs; rewrite Hp; simpl;
      (destruct s; [contradiction | reflexivity]).
  - intros [-> | ->] [-> | ->]; reflexivity.
Qed.

Lemma replace_spec (pat rep s : string) :
  replacesFirst pat rep s (JS.replace pat rep s).
Proof.
  split.
  - intros pre post -> Hfirst. now apply JSFacts.replace_first.
  - apply JSFacts.replace_absent.
Qed.

Lemma bare_trigger_unchanged (T : string) :
  JS.replace (T ++ ":") "did:" T = T.
Proof.
  apply JSFacts.replace_absent. intros m.
  apply JSFacts.longer_pattern_absent.
  rewrite JSFacts.length_append. simpl. lia.
Qed.

Lemma prefixed_trigger_replaced (T rest : string) :
  JS.replace (T ++ ":") "did:" (T ++ ":" ++ rest) = "did:" ++ rest.
Proof.
  rewrite <- JSFacts.append_assoc. apply JSFacts.replace_at_start.
Qed.

(** C4. The resolver gives each matching label name, in order, one action
    that carries the name, and the operation of that action is the second
    colon-separated segment of the name: the text between the first colon
    and the next one (or the end of the name), and it is undefined when the
    name has no colon.  This holds in [src/api/annotate.ts] and in the
    verbose variant. *)
Theorem operation_is_second_segment (env : Env) (T : string)
    (names : list string) (article : Article) :
  Forall2 (fun n a =>
             Annotate.label a = n /\ secondSegment n (Annotate.action a))
    names (Annotate.getLabelAction env T names article)
  /\ Forall2 (fun n a =>
                Verbose.label a = n /\ secondSegment n (Verbose.action a))
       names (Verbose.getLabelAction env names article T).
Proof.
  split; apply ListFacts.Forall2_map; intros n _;
    (split; [reflexivity | apply second_segment_spec]).
Qed.

(** C4, as stated, fails: for the name [do:a:b] the operation is [a], not
    [a:b], and for the bare trigger [do] it is undefined, not the empty
    string. *)
Lemma operation_is_not_rest_after_first_colon :
  map Annotate.action
    (Annotate.getLabelAction env_default "do" ["do:a:b"; "do"] article_plain)
  = [Some "a"; None]
  /\ ~ Forall (fun a => afterFirstColon (Annotate.label a) (Annotate.action a))
         (Annotate.getLabelAction env_default "do" ["do:a:b"] article_plain)
  /\ ~ Forall (fun a => afterFirstColon (Annotate.label a) (Annotate.action a))
         (Annotate.getLabelAction env_default "do" ["do"] article_plain).
Proof.
  split; [reflexivity|]. split; intros H; inversion H as [|a l [Hbare Hrest] _]; subst.
  - specialize (Hrest "do" "a:b" eq_refl eq_refl). discriminate.
  - specialize (Hbare eq_refl). discriminate.
Qed.

(** C6. The resolver gives one action per name, in input order; the
    replacement label is the name with its first occurrence of the trigger
    followed by a colon replaced by [did:] (the name itself when there is
    no occurrence, as for the bare trigger); and the prompt fragments are
    always the four entries template, title, content and note, in this
    order, where the note entry is the empty string when the article has no
    existing note and a text that starts with [Existing note: ] when it has
    one.  This holds in [src/api/annotate.ts] and in the verbose variant. *)
Theorem resolver_actions (env : Env) (T : string) (names : list string)
    (article : Article) :
  (map Annotate.label (Annotate.getLabelAction env T names article) = names
   /\ Forall (fun a =>
        replacesFirst (T ++ ":") "did:" (Annotate.label a)
          (Annotate.replacedLabel a)
        /\ (forall rest, Annotate.label a = T ++ ":" ++ rest ->
            Annotate.replacedLabel a = "did:" ++ rest)
        /\ (Annotate.label a = T -> Annotate.replacedLabel a = T)
        /\ exists template note,
             Annotate.prompts a =
               [template;
                "Article title: " ++ title article;
                "Article content: " ++ content article;
                note]
             /\ (existingNote article = None -> note = "")
             /\ (existingNote article <> None ->
                 exists text, note = "Existing note: " ++ text))
        (Annotate.getLabelAction env T names article))
  /\ (map Verbose.label (Verbose.getLabelAction env names article T) = names
      /\ Forall (fun a =>
           replacesFirst (T ++ ":") "did:" (Verbose.label a)
             (Verbose.replacedLabel a)
           /\ (forall rest, Verbose.label a = T ++ ":" ++ rest ->
               Verbose.replacedLabel a = "did:" ++ rest)
           /\ (Verbose.label a = T -> Verbose.replacedLabel a = T)
           /\ exists template note,
                Verbose.prompts a =
                  [template;
                   "Article title: " ++ title article;
                   "Article content: " ++ content article;
                   note]
                /\ (existingNote article = None -> note = "")
                /\ (existingNote article <> None ->
                    exists text, note = "Existing note: " ++ text))
           (Verbose.getLabelAction env names article T)).
Proof.
  split; (split;
    [ unfold Annotate.getLabelAction, Verbose.getLabelAction;
      rewrite map_map; simpl; apply map_id
    | apply Forall_forall; intros a Ha;
      apply in_map_iff in Ha as (n & <- & _); simpl;
      split; [apply replace_spec|];
      split; [intros rest ->; apply prefixed_trigger_replaced|];
      split; [intros ->; apply bare_trigger_unchanged|];
      eexists; eexists; unfold promptBodyArray;
      (split; [reflexivity|]);
      destruct (existingNote article);
      (split; [intros Hnone | intros Hsome]);
      first [ discriminate Hnone | reflexivity | now destruct Hsome
            | eexists; reflexivity ] ]).
Qed.

(** C6, as stated, fails: for an article without a note the prompt
    fragments of an action hold the empty string, a falsy fragment. *)
Lemma resolver_keeps_empty_note_fragment :
  map Annotate.prompts
    (Annotate.getLabelAction env_default "do" ["do:sum"] article_plain)
  = [[fallbackPrompt; "Article title: Title"; "Article content: Body"; ""]]
  /\ ~ Forall (fun a => Forall (fun p => JS.truthy p = true) (Annotate.prompts a))
         (Annotate.getLabelAction env_default "do" ["do:sum"] article_plain).
Proof.
  split; [reflexivity|].
  intros H. inversion H as [|a l Ha _]; subst.
  apply Forall_forall with (x := "") in Ha; [discriminate Ha|].
  simpl. tauto.
Qed.

(** C8. The resolver gives each matching label name, in order, one action
    that carries the name, and the prompt template of that action, the
    first of its prompt fragments, is the first non-empty of: the
    description of the article label with that exact name, the default
    prompt of the environment, and the literal prompt.  This holds in
    [src/api/annotate.ts] and in the verbose variant. *)
Theorem template_fallback_chain (env : Env) (T : string)
    (names : list string) (article : Article) :
  Forall2 (fun n a =>
     Annotate.label a = n
     /\ exists d template rest,
          describes (labels article) n d
          /\ Annotate.prompts a = template :: rest
          /\ firstNonEmpty d (OPENAI_PROMPT env) fallbackPrompt template)
    names (Annotate.getLabelAction env T names article)
  /\ Forall2 (fun n a =>
       Verbose.label a = n
       /\ exists d template rest,
            describes (labels article) n d
            /\ Verbose.prompts a = template :: rest
            /\ firstNonEmpty d (OPENAI_PROMPT env) fallbackPrompt template)
       names (Verbose.getLabelAction env names article T).
Proof.
  split; apply ListFacts.Forall2_map; intros n _;
    (split; [reflexivity|]);
    exists (getLabelDescription n (labels article));
    eexists; eexists;
    (split; [apply getLabelDescription_spec|]);
    (split; [reflexivity|]); apply promptWithFallback_spec.
Qed.

End Resolver.

(** ** The taxonomy prompt *)

Module Taxonomy.
Import Common.

Lemma outsideNamespace_decided (T : string) (l : Label) :
  Annotate.outsideNamespace T l = true <-> ~ beforeFirstColon (name l) T.
Proof.
  unfold Annotate.outsideNamespace.
  destruct (JS.at_index (JS.split JS.colon (name l)) 0) as [first|] eqn:Hfirst.
  - rewrite negb_true_iff, String.eqb_neq. split.
    + intros Hne HT. apply JSFacts.first_segment in HT. congruence.
    + intros Hnot ->. now apply Hnot, JSFacts.first_segment.
  - split; [|reflexivity]. intros _ HT.
    apply JSFacts.first_segment in HT. congruence.
Qed.

Lemma legacy_filter_decided (T : string) (l : Label) :
  negb (Legacy.inNamespace T l) = true <-> ~ beforeFirstColon (name l) T.
Proof.
  rewrite <- outsideNamespace_decided.
  unfold Legacy.inNamespace, Annotate.outsideNamespace.
  now destruct (JS.at_index (JS.split JS.colon (name l)) 0).
Qed.

Lemma verbose_filter_decided (T : string) (l : Label) :
  negb (JS.startsWith (name l) T) = true <-> ~ exists rest, name l = T ++ rest.
Proof.
  rewrite negb_true_iff, <- JSFacts.startsWith_spec.
  now destruct (JS.startsWith (name l) T).
Qed.

(** C10. [labelsToPrompt] gives [null] for the empty list.  For any other
    list the prompt is rendered from the labels that are kept, and those
    are exactly the labels outside the trigger namespace, in order: a label
    is dropped when the part of its name before the first colon is the
    trigger ([src/api/annotate.ts] and the legacy variant) or when its name
    starts with the trigger (the verbose variant, which also gives [null]
    when no label is kept). *)
Theorem labelsToPrompt_drops_trigger_namespace (h : Host)
    (labels : list Label) (T prePrompt : string) (returnJson : bool) :
  (Annotate.labelsToPrompt h [] T prePrompt returnJson = None
   /\ exists kept,
        Keeping (fun l => ~ beforeFirstColon (name l) T) labels kept
        /\ (labels <> [] ->
            Annotate.labelsToPrompt h labels T prePrompt returnJson =
            Some (if returnJson
                  then JSON_stringify h (JArr (map Annotate.labelJson kept))
                  else prePrompt ++ " " ++ JS.join ", " (map name kept))))
  /\ (Legacy.labelsToPrompt [] T prePrompt = None
      /\ exists kept,
           Keeping (fun l => ~ beforeFirstColon (name l) T) labels kept
           /\ (labels <> [] ->
               Legacy.labelsToPrompt labels T prePrompt =
               Some (prePrompt ++ " " ++ JS.join ", " (map name kept))))
  /\ (Verbose.labelsToPrompt h [] T prePrompt returnJson = None
      /\ exists kept,
           Keeping (fun l => ~ exists rest, name l = T ++ rest) labels kept
           /\ (labels <> [] ->
               Verbose.labelsToPrompt h labels T prePrompt returnJson =
               match kept with
               | [] => None
               | _ =>
                   Some (prePrompt ++ " "
                           ++ (if returnJson
                               then JSON_stringify_indent2 h
                                      (JArr (map Verbose.labelJson kept))
                               else JS.join ", " (map name kept)))
               end)).
Proof.
  repeat split.
  - exists (filter (Annotate.outsideNamespace T) labels). split.
    + apply ListFacts.Keeping_filter. intros l. apply outsideNamespace_decided.
    + intros Hne. unfold Annotate.labelsToPrompt.
      destruct labels; [contradiction|].
      destruct returnJson; reflexivity.
  - exists (filter (fun l => negb (Legacy.inNamespace T l)) labels). split.
    + apply ListFacts.Keeping_filter. intros l. apply legacy_filter_decided.
    + intros Hne. unfold Legacy.labelsToPrompt.
      destruct labels; [contradiction | reflexivity].
  - exists (filter (fun l => negb (JS.startsWith (name l) T)) labels). split.
    + apply ListFacts.Keeping_filter. intros l. apply verbose_filter_decided.
    + intros Hne. unfold Verbose.labelsToPrompt.
      destruct labels as [|l0 labels]; [contradiction|].
      change (Nat.eqb (length (l0 :: labels)) 0) with false. cbv iota.
      destruct (filter _ (l0 :: labels)) as [|k kept]; [reflexivity|].
      destruct returnJson; reflexivity.
Qed.

End Taxonomy.

(** ** The dispatcher *)

Module Dispatcher.
Import Common.

(** The callback of [find] in [src/api/annotate.ts] never accepts an
    action. *)
Lemma annotate_never_resolves (labelActions : list Annotate.LabelAction)
    (currentAction : string) :
  Annotate.resolvedLabelActions labelActions currentAction = None.
Proof.
  unfold Annotate.resolvedLabelActions.
  induction labelActions as [|a l IH]; simpl; [reflexivity | exact IH].
Qed.

Lemma annotate_never_runs_tags (labelActions : list Annotate.LabelAction)
    (a : Annotate.LabelAction) :
  Annotate.dispatch labelActions <> Annotate.RunTagGeneration a.
Proof.
  unfold Annotate.dispatch. rewrite annotate_never_resolves.
  destruct (Annotate.hasOpen _); [|discriminate].
  destruct (Annotate.nextAction _); discriminate.
Qed.

(** X10. The verbose variant runs tag generation on the first action whose
    operation is [tags], wherever it stands. *)
Lemma verbose_dispatch_first_tags (before after : list Verbose.LabelAction)
    (a : Verbose.LabelAction) :
  Forall (fun x => Verbose.action x <> Some "tags") before ->
  Verbose.action a = Some "tags" ->
  Verbose.dispatch (before ++ a :: after)%list
  = Verbose.RunTagGeneration (Some a).
Proof.
  intros Hbefore Ha. unfold Verbose.dispatch, Verbose.resolvedLabelActions.
  assert (Hfind : find (fun label => Verbose.action_is label "tags")
                    (before ++ a :: after)%list = Some a).
  { induction Hbefore as [|x before Hx _ IH]; simpl.
    - unfold Verbose.action_is. now rewrite Ha.
    - unfold Verbose.action_is at 1.
      destruct (Verbose.action x) as [op|] eqn:Hop; [|exact IH].
      destruct (op =? "tags") eqn:Heq; [|exact IH].
      apply String.eqb_eq in Heq. congruence. }
  simpl. now rewrite Hfind.
Qed.

(** X11. The verbose variant reads [done] from actions that have no such
    field: without a [tags] action nothing is open and the request is
    unhandled. *)
Lemma verbose_without_tags_is_unhandled (labelActions : list Verbose.LabelAction) :
  Forall (fun x => Verbose.action x <> Some "tags") labelActions ->
  Verbose.dispatch labelActions = Verbose.Unhandled.
Proof.
  intros Hnone. unfold Verbose.dispatch, Verbose.resolvedLabelActions.
  assert (Hfind : find (fun label => Verbose.action_is label "tags")
                    labelActions = None).
  { induction Hnone as [|x l Hx _ IH]; simpl; [reflexivity|].
    unfold Verbose.action_is at 1.
    destruct (Verbose.action x) as [op|] eqn:Hop; [|exact IH].
    destruct (op =? "tags") eqn:Heq; [|exact IH].
    apply String.eqb_eq in Heq. congruence. }
  cbn [Verbose.found]. rewrite Hfind.
  assert (Hopen : existsb (fun label => Verbose.strictly_false (Verbose.done label))
                    labelActions = false).
  { clear. induction labelActions as [|x l IH]; simpl; [reflexivity | exact IH]. }
  unfold Verbose.hasOpenLabelActions. cbn [Verbose.found Verbose.hasOpen].
  now rewrite Hopen.
Qed.

(** C1. In [src/api/annotate.ts] the callback of [find] in
    [resolvedLabelActions] has a block body without [return], so no action
    is ever resolved: with the single label [do:tags] the operation is
    [tags], the dispatch runs the annotation branch, and the handler writes
    a note and no label. *)
Theorem annotate_dispatch_skips_tags :
  let actions :=
    Annotate.getLabelAction env_default "do" ["do:tags"] article_plain in
  let outcome :=
    run (Annotate.handler env_default (host_of data_plain (Some "Summary"))
           (request_with "created" ["do:tags"])) in
  map Annotate.action actions = [Some "tags"]
  /\ Annotate.resolvedLabelActions actions "tags" = None
  /\ (exists a, actions = [a] /\ Annotate.dispatch actions = Annotate.RunAnnotation a)
  /\ fst outcome = Returned (mkResponse "Annotation applied to the article." 200)
  /\ writtenLabels (calls (snd outcome)) = []
  /\ In (CreateHighlight headers_default "NOTE" sample_uuid "123e4567" "a1" "Summary")
       (calls (snd outcome)).
Proof.
  cbv zeta. split; [reflexivity|]. split; [reflexivity|].
  split; [eexists; split; reflexivity|].
  split; [reflexivity|]. split; [reflexivity|].
  vm_compute. tauto.
Qed.

End Dispatcher.

(** ** The annotation flow *)

Module AnnotationFlow.
Import Common.

Lemma findNote_first (highlights : list Highlight) :
  (exists hl, In hl highlights /\ h_type hl = "NOTE") ->
  exists note, findNote highlights = Some note /\ firstNote highlights note.
Proof.
  unfold findNote. induction highlights as [|x l IH]; intros (hl & Hin & Hty).
  - destruct Hin.
  - simpl. destruct (h_type x =? "NOTE") eqn:Hx.
    + exists x. split; [reflexivity|].
      exists [], l. repeat split; [now apply String.eqb_eq | intros y []].
    + apply String.eqb_neq in Hx.
      destruct Hin as [-> | Hin]; [contradiction|].
      destruct IH as (note & Hfind & before & after & -> & Hnote & Hbefore).
      { now exists hl. }
      exists note. split; [exact Hfind|].
      exists (x :: before), after. repeat split; [exact Hnote|].
      intros y [<- | Hy]; auto.
Qed.

Lemma findNote_none (highlights : list Highlight) :
  (forall hl, In hl highlights -> h_type hl <> "NOTE") ->
  findNote highlights = None.
Proof.
  unfold findNote. induction highlights as [|x l IH]; intros Hnone; simpl.
  - reflexivity.
  - destruct (h_type x =? "NOTE") eqn:Hx.
    + apply String.eqb_eq in Hx. now destruct (Hnone x (or_introl eq_refl)).
    + apply IH. intros hl Hhl. apply Hnone. now right.
Qed.

(** C9. In the annotation flow of [src/api/annotate.ts], once the
    completion has given a text, an article with a highlight of type [NOTE]
    gets one [updateHighlight] call keyed by the id of its first such
    highlight and no [createHighlight] call; an article without one gets
    one [createHighlight] call of type [NOTE] whose id is the UUID drawn
    for it and whose short id is the first 8 characters of that UUID. *)
Theorem annotation_updates_or_creates (h : Host) (omnivoreHeaders : Headers)
    (settings articleId : string) (d : ArticleData)
    (currentLabelAction : Annotate.LabelAction) (parsed : json) (c : string)
    (t : Trace) :
  JSON_parse h settings = Returned parsed ->
  chat_completion h parsed (Annotate.annotationPrompt currentLabelAction) false
    = Returned (Some c) ->
  escapeAnnotation (JS.trim c) <> "" ->
  let annotation := escapeAnnotation (JS.trim c) in
  let completion :=
    ChatCompletion parsed (Annotate.annotationPrompt currentLabelAction) false in
  let outcome :=
    Annotate.annotationFlow h omnivoreHeaders settings
      (articleOf articleId d) currentLabelAction t in
  fst outcome = Returned (mkResponse "Annotation applied to the article." 200)
  /\ ((exists hl, In hl (d_highlights d) /\ h_type hl = "NOTE") ->
      exists note,
        firstNote (d_highlights d) note
        /\ calls (snd outcome) =
           (calls t ++ [completion;
                        UpdateHighlight omnivoreHeaders (h_id note) annotation])%list)
  /\ ((forall hl, In hl (d_highlights d) -> h_type hl <> "NOTE") ->
      let uuid := uuidv4 h (uuids t) in
      calls (snd outcome) =
        (calls t ++ [completion;
                     CreateHighlight omnivoreHeaders "NOTE" uuid
                       (JS.substring0 8 uuid) articleId annotation])%list
      /\ (exists rest, uuid = JS.substring0 8 uuid ++ rest)
      /\ (8 <= String.length uuid ->
          String.length (JS.substring0 8 uuid) = 8)).
Proof.
  intros Hparse Hcompletion Hannotation. cbv zeta.
  unfold Annotate.annotationFlow. eff. rewrite Hparse, Hcompletion.
  cbn [option_map]. rewrite (JSFacts.truthy_nonempty _ Hannotation).
  unfold applyAnnotationToOmnivoreArticle, updateAnnotationInOmnivoreArticle,
    addAnnotationToOmnivoreArticle. eff.
  cbn [existingNote articleOf id].
  repeat split.
  - destruct (findNote (d_highlights d)); cbn;
      destruct (omnivore_write h _); reflexivity.
  - intros Hnote. destruct (findNote_first _ Hnote) as (note & -> & Hfirst).
    exists note. split; [exact Hfirst|]. cbn.
    destruct (omnivore_write h _); cbn; now rewrite <- app_assoc.
  - rewrite (findNote_none _ H). cbn.
    destruct (omnivore_write h _); cbn; now rewrite <- app_assoc.
  - apply JSFacts.substring0_prefix.
  - apply JSFacts.substring0_length.
Qed.

(** C9 on a concrete run: an article with a note, and one without. *)
Lemma annotation_updates_or_creates_witness :
  calls (snd (Annotate.annotationFlow (host_of data_noted (Some "Summary"))
                headers_default "{}" article_noted action_bare start))
  = [ChatCompletion (JObj []) "- Go" false;
     UpdateHighlight headers_default "n1" "Summary"]
  /\ calls (snd (Annotate.annotationFlow (host_of data_plain (Some "Summary"))
                   headers_default "{}" article_plain action_bare start))
     = [ChatCompletion (JObj []) "- Go" false;
        CreateHighlight headers_default "NOTE" sample_uuid "123e4567" "a1"
          "Summary"].
Proof.
  assert (Htext : escapeAnnotation (JS.trim "Summary") <> "") by discriminate.
  destruct (annotation_updates_or_creates (host_of data_noted (Some "Summary"))
              headers_default "{}" "a1" data_noted action_bare
              (JObj []) "Summary" start eq_refl eq_refl Htext)
    as (_ & Hupdate & _).
  destruct (annotation_updates_or_creates (host_of data_plain (Some "Summary"))
              headers_default "{}" "a1" data_plain action_bare
              (JObj []) "Summary" start eq_refl eq_refl Htext)
    as (_ & _ & Hcreate).
  split.
  - assert (Hnote : exists hl, In hl (d_highlights data_noted)
                               /\ h_type hl = "NOTE").
    { exists (mkHighlight "n1" "NOTE"). simpl. tauto. }
    destruct (Hupdate Hnote)
      as (note & (before & after & Hsplit & Htype & _) & Hcalls).
    assert (Hid : h_id note = "n1").
    { destruct before as [|b1 [|b2 [|b3 before]]]; simpl in Hsplit;
        try (injection Hsplit as <- _; discriminate Htype);
        try (injection Hsplit as _ <- _; reflexivity);
        try (injection Hsplit as _ _ Hnil; destruct before; discriminate Hnil).
      injection Hsplit as _ _ Hnil. discriminate Hnil. }
    rewrite Hid in Hcalls. exact Hcalls.
  - assert (Hnone : forall hl, In hl (d_highlights data_plain)
                               -> h_type hl <> "NOTE") by (intros hl []).
    exact (proj1 (Hcreate Hnone)).
Defined.

End AnnotationFlow.

(** ** Responses to an empty completion *)

Module EmptyCompletion.
Import Common.

(** C3. When the completion is [null] or the empty string no flow throws
    and each answers with a message of its own: the annotation flow of
    [src/api/annotate.ts] with status 500, its tag-generation flow with
    status 200, and the tag-generation flow of the verbose variant with
    status 500. *)
Theorem empty_completion_responses (h : Host) (omnivoreHeaders : Headers)
    (T settings : string) (article : Article) (parsed : json)
    (content : option string) (allLabels : list Label) (t : Trace) :
  emptyCompletion content ->
  JSON_parse h settings = Returned parsed ->
  labels_query h omnivoreHeaders = Returned allLabels ->
  new_OpenAI h = Returned tt ->
  (forall cur,
     chat_completion h parsed (Annotate.annotationPrompt cur) false
       = Returned content ->
     fst (Annotate.annotationFlow h omnivoreHeaders settings article cur t)
     = Returned (mkResponse "No generated response from OpenAI." 500))
  /\ (forall cur,
        chat_completion h parsed
          (Annotate.tagsPrompt h T article cur allLabels) true
          = Returned content ->
        fst (Annotate.tagsFlow h omnivoreHeaders T settings article cur t)
        = Returned (mkResponse "No new tags generated." 200))
  /\ (forall cur,
        chat_completion h parsed
          (Verbose.tagsPrompt h T article cur allLabels) true
          = Returned content ->
        fst (Verbose.tagsFlow h omnivoreHeaders T settings article (Some cur) t)
        = Returned (mkResponse "No response from OpenAI." 500)).
Proof.
  intros Hempty Hparse Hlabels Hclient. repeat split; intros cur Hcompletion.
  - unfold Annotate.annotationFlow. eff. rewrite Hparse, Hcompletion.
    destruct Hempty as [-> | ->]; reflexivity.
  - unfold Annotate.tagsFlow, getAllLabelsFromOmnivore. eff.
    rewrite Hlabels, Hparse, Hcompletion.
    destruct Hempty as [-> | ->]; reflexivity.
  - unfold Verbose.tagsFlow, getAllLabelsFromOmnivore. eff.
    rewrite Hlabels, Hclient, Hparse, Hcompletion.
    destruct Hempty as [-> | ->]; reflexivity.
Qed.

(** C3 on a concrete run, with a [null] completion. *)
Lemma empty_completion_responses_witness :
  fst (Annotate.annotationFlow (host_of data_plain None) headers_default "{}"
         article_plain
         action_bare
         start)
  = Returned (mkResponse "No generated response from OpenAI." 500)
  /\ fst (Annotate.tagsFlow (host_of data_plain None) headers_default "do" "{}"
            article_plain
            action_tags
            start)
     = Returned (mkResponse "No new tags generated." 200)
  /\ fst (Verbose.tagsFlow (host_of data_plain None) headers_default "do" "{}"
            article_plain
            (Some action_tags_verbose)
            start)
     = Returned (mkResponse "No response from OpenAI." 500).
Proof.
  destruct (empty_completion_responses (host_of data_plain None)
              headers_default "do" "{}" article_plain (JObj []) None
              [mkLabel "x" None; mkLabel "y" None] start
              (or_introl eq_refl) eq_refl eq_refl eq_refl)
    as (Hannotation & Htags & Hverbose).
  split; [apply Hannotation; reflexivity|].
  split; [apply Htags; reflexivity | apply Hverbose; reflexivity].
Defined.

(** The other flows: the annotation flow of the verbose and legacy
    variants answers 500, the tag-generation flow of the legacy variant
    200. *)
Lemma empty_completion_other_flows (h : Host) (omnivoreHeaders : Headers)
    (T settings articleId didAction : string) (article : Article)
    (parsed : json) (content : option string) (allLabels : list Label)
    (t : Trace) :
  emptyCompletion content ->
  JSON_parse h settings = Returned parsed ->
  labels_query h omnivoreHeaders = Returned allLabels ->
  new_OpenAI h = Returned tt ->
  (forall prompt schema, chat_completion h parsed prompt schema = Returned content) ->
  (forall cur,
     fst (Verbose.annotationFlow h omnivoreHeaders settings article cur t)
     = Returned (mkResponse "No generated response from OpenAI." 500))
  /\ (forall fragments,
        fst (Legacy.annotationFlow h omnivoreHeaders settings articleId article
               fragments t)
        = Returned (mkResponse "No generated response from OpenAI." 500))
  /\ (forall fragments,
        fst (Legacy.tagsFlow h omnivoreHeaders T settings articleId didAction
               article fragments t)
        = Returned (mkResponse "No new tags generated." 200)).
Proof.
  intros Hempty Hparse Hlabels Hclient Hcompletion. repeat split; intros x.
  - unfold Verbose.annotationFlow. eff. rewrite Hclient, Hparse, Hcompletion.
    destruct Hempty as [-> | ->]; reflexivity.
  - unfold Legacy.annotationFlow. eff. rewrite Hparse, Hcompletion.
    destruct Hempty as [-> | ->]; reflexivity.
  - unfold Legacy.tagsFlow, getAllLabelsFromOmnivore. eff.
    rewrite Hlabels, Hparse, Hcompletion.
    destruct Hempty as [-> | ->]; reflexivity.
Qed.

(** No handler throws: the [try] of each turns every error into a
    response. *)
Lemma handlers_never_throw (env : Env) (h : Host)
    (req : Outcome WebhookPayload) (t : Trace) :
  (exists r, fst (Annotate.handler env h req t) = Returned r)
  /\ (exists r, fst (Verbose.handler env h req t) = Returned r)
  /\ (exists r, fst (Legacy.handler env h req t) = Returned r).
Proof.
  repeat split.
  - unfold Annotate.handler, try_catch.
    match goal with |- context [match ?c with _ => _ end] => destruct c as [[r|m] t'] end;
      eexists; reflexivity.
  - unfold Verbose.handler, try_catch, bind, draw_uuid.
    match goal with |- context [match ?c with _ => _ end] => destruct c as [[r|m] t'] end;
      eexists; reflexivity.
  - unfold Legacy.handler, try_catch.
    match goal with |- context [match ?c with _ => _ end] => destruct c as [[r|m] t'] end;
      eexists; reflexivity.
Qed.

(** C3, as stated, fails: with a completion that is [null] or the empty
    string the handler of [src/api/annotate.ts] answers with status 500. *)
Lemma empty_completion_answers_500 :
  fst (run (Annotate.handler env_default (host_of data_plain None)
              (request_with "created" ["do:sum"])))
  = Returned (mkResponse "No generated response from OpenAI." 500)
  /\ fst (run (Annotate.handler env_default (host_of data_plain (Some ""))
                 (request_with "created" ["do:sum"])))
     = Returned (mkResponse "No generated response from OpenAI." 500)
  /\ is5xx (mkResponse "No generated response from OpenAI." 500).
Proof.
  split; [reflexivity|]. split; [reflexivity|].
  unfold is5xx; simpl; lia.
Qed.

End EmptyCompletion.

(** ** The labels written by the tag-generation flow *)

Module TagFlow.
Import Common.

Lemma writtenLabels_app (a b : list Call) :
  writtenLabels (a ++ b) = (writtenLabels a ++ writtenLabels b)%list.
Proof.
  induction a as [|c a IH]; simpl; [reflexivity|].
  destruct c; simpl; now rewrite IH.
Qed.

(** X13. [src/api/annotate.ts]: the branch writes the names of the
    article's labels, the generated tags and the replacement label, each
    once per occurrence. *)
Lemma annotate_writes_union (h : Host) (omnivoreHeaders : Headers)
    (T settings : string) (article : Article) (cur : Annotate.LabelAction)
    (parsed : json) (content : option string) (allLabels : list Label)
    (tags : list string) (t : Trace) :
  labels_query h omnivoreHeaders = Returned allLabels ->
  JSON_parse h settings = Returned parsed ->
  chat_completion h parsed (Annotate.tagsPrompt h T article cur allLabels) true
    = Returned content ->
  Annotate.generatedTags article content = Some tags ->
  tags <> [] ->
  writtenLabels
    (calls (snd (Annotate.tagsFlow h omnivoreHeaders T settings article cur t)))
  = (writtenLabels (calls t)
       ++ [map JStr (map name (labels article) ++ tags
                       ++ [Annotate.replacedLabel cur])])%list.
Proof.
  intros Hlabels Hparse Hcompletion Htags Hsome.
  unfold Annotate.tagsFlow, getAllLabelsFromOmnivore, addLabelsToOmnivoreArticle.
  eff. rewrite Hlabels, Hparse, Hcompletion, Htags.
  destruct tags as [|tag tags]; [contradiction|].
  cbn -[app map]. destruct (omnivore_write h _); cbn -[app map];
    rewrite !writtenLabels_app; cbn -[map]; now rewrite !app_nil_r.
Qed.

(** X14. The verbose variant: the branch writes the article's labels, the
    [tags] of the parsed completion and an object for the replacement
    label. *)
Lemma verbose_writes_union (h : Host) (omnivoreHeaders : Headers)
    (T settings : string) (article : Article) (cur : Verbose.LabelAction)
    (parsed : json) (response : string) (fields : list (string * json))
    (tags : list json) (allLabels : list Label) (t : Trace) :
  labels_query h omnivoreHeaders = Returned allLabels ->
  new_OpenAI h = Returned tt ->
  JSON_parse h settings = Returned parsed ->
  chat_completion h parsed (Verbose.tagsPrompt h T article cur allLabels) true
    = Returned (Some response) ->
  response <> "" ->
  JSON_parse h response = Returned (JObj fields) ->
  Verbose.field "length" fields = None ->
  Verbose.field "tags" fields = Some (JArr tags) ->
  writtenLabels
    (calls (snd (Verbose.tagsFlow h omnivoreHeaders T settings article
                   (Some cur) t)))
  = (writtenLabels (calls t)
       ++ [map Verbose.labelObject (labels article) ++ tags
             ++ [JObj [("name", JStr (Verbose.replacedLabel cur))]]])%list.
Proof.
  intros Hlabels Hclient Hparse Hcompletion Hresponse Hjson Hlength Htags.
  unfold Verbose.tagsFlow, getAllLabelsFromOmnivore, addLabelsToOmnivoreArticle.
  eff. rewrite Hlabels, Hclient, Hparse, Hcompletion.
  rewrite (JSFacts.truthy_nonempty _ Hresponse), Hjson.
  cbn [Verbose.json_truthy Verbose.get_prop negb orb].
  rewrite Hlength, Htags. cbn -[app map].
  destruct (omnivore_write h _); cbn -[app map];
    rewrite !writtenLabels_app; cbn -[map]; now rewrite !app_nil_r.
Qed.

(** C7. In the legacy variant the array [labels] (existing names,
    generated tags, replacement label) is built and then not used: the call
    passes [generatedTags].  For an article labelled [x] and [do:tags] and
    the completion [y] the handler writes the single label [y]; the union
    also holds [x], [do:tags] and [did:tags]. *)
Theorem legacy_writes_generated_tags_only :
  let outcome :=
    run (Legacy.handler env_default (host_of data_plain (Some "y"))
           (request_with "do:tags" ["do:tags"])) in
  fst outcome
  = Returned
      (mkResponse
         "New tags added to the article and action updated to did: action."
         200)
  /\ writtenLabels (calls (snd outcome)) = [[JStr "y"]]
  /\ map name (labels article_plain) = ["x"; "do:tags"]
  /\ Legacy.generatedTags (labels article_plain) (Some "y") = Some ["y"]
  /\ JS.replace "do:" "did:" "do:tags" = "did:tags"
  /\ ~ In (JStr "x") [JStr "y"]
  /\ ~ In (JStr "did:tags") [JStr "y"].
Proof.
  cbv zeta. repeat split; try reflexivity.
  - intros [H | []]; discriminate H.
  - intros [H | []]; discriminate H.
Qed.

(** The same input through the tag-generation branch of
    [src/api/annotate.ts] and through the verbose handler gives the union. *)
Lemma sibling_flows_write_union :
  writtenLabels
    (calls (snd (Annotate.tagsFlow (host_of data_plain (Some "y"))
                   headers_default "do" "{}" article_plain
                   action_tags
                   start)))
  = [[JStr "x"; JStr "do:tags"; JStr "y"; JStr "did:tags"]]
  /\ map (map writtenName)
       (writtenLabels
          (calls (snd (run (Verbose.handler env_default
                              host_structured
                              (request_with "created" ["do:tags"]))))))
     = [[Some "x"; Some "do:tags"; Some "y"; Some "did:tags"]].
Proof. split; reflexivity. Qed.

End TagFlow.

(** ** What every invocation does *)

Module Invocation.
Import Common.

Lemma completions_app (a b : list Call) :
  completions (a ++ b) = completions a + completions b.
Proof.
  induction a as [|c a IH]; simpl; [reflexivity|].
  destruct c; simpl; now rewrite IH.
Qed.

Lemma mutations_app (a b : list Call) :
  mutations (a ++ b) = mutations a + mutations b.
Proof.
  induction a as [|c a IH]; simpl; [reflexivity|].
  destruct c; simpl; now rewrite IH.
Qed.

Lemma noteWrites_app (a b : list Call) :
  noteWrites (a ++ b) = (noteWrites a ++ noteWrites b)%list.
Proof.
  induction a as [|c a IH]; simpl; [reflexivity|].
  destruct c; simpl; now rewrite IH.
Qed.

Ltac reduce := cbv beta iota zeta; cbn [fst snd calls uuids option_map].

Ltac host_step :=
  match goal with
  | |- context [JSON_parse ?h ?s] => destruct (JSON_parse h s) eqn:?
  | |- context [chat_completion ?h ?a ?b ?c] =>
      destruct (chat_completion h a b c) as [[?|]|] eqn:?
  | |- context [labels_query ?h ?c] => destruct (labels_query h c) eqn:?
  | |- context [new_OpenAI ?h] => destruct (new_OpenAI h) eqn:?
  | |- context [omnivore_write ?h ?c] => destruct (omnivore_write h c) eqn:?
  | |- context [article_query ?h ?a ?b] => destruct (article_query h a b) eqn:?
  | |- context [JS.truthy ?s] => destruct (JS.truthy s) eqn:?
  end; reduce.

Ltac finish :=
  eexists; split;
    [rewrite <- ?app_assoc; first [reflexivity | symmetry; apply app_nil_r]|];
  cbn [completions mutations writtenLabels noteWrites app];
  repeat split; auto; try lia.

Lemma annotate_annotationFlow_trace h hdrs settings article cur t :
  branch_ok (Annotate.annotationFlow h hdrs settings article cur) t
    (fun new => writtenLabels new = []).
Proof.
  unfold branch_ok, Annotate.annotationFlow, applyAnnotationToOmnivoreArticle,
    updateAnnotationInOmnivoreArticle, addAnnotationToOmnivoreArticle.
  eff. reduce.
  repeat host_step.
  all: try (destruct (existingNote article); reduce; repeat host_step).
  all: finish.
Qed.

Lemma verbose_annotationFlow_trace h hdrs settings article cur t :
  branch_ok (Verbose.annotationFlow h hdrs settings article cur) t
    (fun new => writtenLabels new = []).
Proof.
  unfold branch_ok, Verbose.annotationFlow, applyAnnotationToOmnivoreArticle,
    updateAnnotationInOmnivoreArticle, addAnnotationToOmnivoreArticle.
  eff. reduce.
  repeat host_step.
  all: try (destruct (existingNote article); reduce; repeat host_step).
  all: finish.
Qed.

Lemma legacy_annotationFlow_trace h hdrs settings articleId article fragments t :
  branch_ok (Legacy.annotationFlow h hdrs settings articleId article fragments) t
    (fun new => writtenLabels new = []).
Proof.
  unfold branch_ok, Legacy.annotationFlow, applyAnnotationToOmnivoreArticle,
    updateAnnotationInOmnivoreArticle, addAnnotationToOmnivoreArticle.
  eff. reduce.
  repeat host_step.
  all: try (destruct (existingNote article); reduce; repeat host_step).
  all: finish.
Qed.

Lemma annotate_tagsFlow_trace h hdrs T settings article cur t :
  branch_ok (Annotate.tagsFlow h hdrs T settings article cur) t
    (fun new => noteWrites new = []).
Proof.
  unfold branch_ok, Annotate.tagsFlow, getAllLabelsFromOmnivore,
    addLabelsToOmnivoreArticle.
  eff. reduce.
  repeat host_step.
  all: try match goal with
           | |- context [Annotate.generatedTags ?a ?c] =>
               destruct (Annotate.generatedTags a c) as [[|? ?]|]; reduce;
               cbn [length Nat.eqb]; reduce; repeat host_step
           end.
  all: finish.
Qed.

Lemma legacy_tagsFlow_trace h hdrs T settings articleId didAction article fragments t :
  branch_ok (Legacy.tagsFlow h hdrs T settings articleId didAction article fragments) t
    (fun new => noteWrites new = []).
Proof.
  unfold branch_ok, Legacy.tagsFlow, getAllLabelsFromOmnivore,
    addLabelsToOmnivoreArticle.
  eff. reduce.
  repeat host_step.
  all: try match goal with
           | |- context [Legacy.generatedTags ?a ?c] =>
               destruct (Legacy.generatedTags a c) as [[|? ?]|]; reduce;
               cbn [length Nat.eqb]; reduce; repeat host_step
           end.
  all: finish.
Qed.

Lemma verbose_tagsFlow_trace h hdrs T settings article cur t :
  branch_ok (Verbose.tagsFlow h hdrs T settings article cur) t
    (fun new => noteWrites new = []).
Proof.
  unfold branch_ok, Verbose.tagsFlow, getAllLabelsFromOmnivore,
    addLabelsToOmnivoreArticle.
  eff. reduce.
  repeat host_step.
  all: try (destruct cur; reduce; repeat host_step).
  all: try match goal with
           | |- context [negb (Verbose.json_truthy ?g) || ?z] =>
               destruct (negb (Verbose.json_truthy g) || z); reduce
           end.
  all: try match goal with
           | |- context [Verbose.spread ?v] =>
               destruct (Verbose.spread v); reduce; repeat host_step
           end.
  all: finish.
Qed.


Lemma verbose_dispatch_cases (l : list Verbose.LabelAction) :
  (exists a, Verbose.dispatch l = Verbose.RunTagGeneration a)
  \/ Verbose.dispatch l = Verbose.Unhandled.
Proof.
  unfold Verbose.dispatch.
  destruct (Verbose.found _); [left; eexists; reflexivity|].
  assert (Hopen : Verbose.hasOpen (Verbose.hasOpenLabelActions l) = false).
  { unfold Verbose.hasOpenLabelActions. cbn [Verbose.hasOpen].
    induction l as [|x l IH]; simpl; [reflexivity | exact IH]. }
  rewrite Hopen. now right.
Qed.

Ltac split_step :=
  match goal with
  | |- context [match ?x with _ => _ end] =>
      lazymatch x with
      | context [match _ with _ => _ end] => fail
      | context [Annotate.annotationFlow] => fail
      | context [Annotate.tagsFlow] => fail
      | context [Verbose.annotationFlow] => fail
      | context [Verbose.tagsFlow] => fail
      | context [Legacy.annotationFlow] => fail
      | context [Legacy.tagsFlow] => fail
      | _ => destruct x eqn:?
      end
  end; reduce.

Ltac close_branch Hlemma flow :=
  let new := fresh "new" in
  let Hc := fresh "Hcalls" in
  let H1 := fresh "Hcompletions" in
  let H2 := fresh "Hmutations" in
  let H3 := fresh "Hextra" in
  let H4 := fresh "Hstatus" in
  destruct Hlemma as (new & Hc & H1 & H2 & H3 & H4);
  let Hflow := fresh "Hflow" in
  destruct flow as [[? | ?] ?] eqn:Hflow;
  cbn [fst snd] in Hc, H4; reduce;
  eexists; (split; [reflexivity|]);
  try rewrite Hc; cbn [calls start app];
  rewrite ?completions_app, ?mutations_app, ?TagFlow.writtenLabels_app,
    ?noteWrites_app;
  cbn [completions mutations writtenLabels noteWrites app status];
  unfold answered; cbn [status];
  repeat split; try tauto; try lia; try (rewrite H3; reflexivity).

Ltac use_branch :=
  match goal with
  | |- context [Annotate.annotationFlow ?h ?hd ?s ?a ?c ?t] =>
      close_branch (annotate_annotationFlow_trace h hd s a c t)
        (Annotate.annotationFlow h hd s a c t)
  | |- context [Annotate.tagsFlow ?h ?hd ?T ?s ?a ?c ?t] =>
      close_branch (annotate_tagsFlow_trace h hd T s a c t)
        (Annotate.tagsFlow h hd T s a c t)
  | |- context [Verbose.annotationFlow ?h ?hd ?s ?a ?c ?t] =>
      close_branch (verbose_annotationFlow_trace h hd s a c t)
        (Verbose.annotationFlow h hd s a c t)
  | |- context [Verbose.tagsFlow ?h ?hd ?T ?s ?a ?c ?t] =>
      close_branch (verbose_tagsFlow_trace h hd T s a c t)
        (Verbose.tagsFlow h hd T s a c t)
  | |- context [Legacy.annotationFlow ?h ?hd ?s ?i ?a ?f ?t] =>
      close_branch (legacy_annotationFlow_trace h hd s i a f t)
        (Legacy.annotationFlow h hd s i a f t)
  | |- context [Legacy.tagsFlow ?h ?hd ?T ?s ?i ?d ?a ?f ?t] =>
      close_branch (legacy_tagsFlow_trace h hd T s i d a f t)
        (Legacy.tagsFlow h hd T s i d a f t)
  end.

Ltac quiet :=
  eexists; (split; [reflexivity|]); unfold answered;
  cbn [calls start completions mutations writtenLabels noteWrites app status];
  repeat split; auto.

Lemma annotate_handler_ok env h req :
  handler_ok (Annotate.handler env h req) (fun sent => writtenLabels sent = []).
Proof.
  unfold handler_ok, run, Annotate.handler, getArticle. eff. reduce.
  repeat split_step; try quiet.
  all: try (exfalso; eapply Dispatcher.annotate_never_runs_tags; eassumption).
  all: use_branch.
Qed.

Lemma verbose_handler_ok env h req :
  handler_ok (Verbose.handler env h req) (fun sent => noteWrites sent = []).
Proof.
  unfold handler_ok, run, Verbose.handler, getArticle. eff. reduce.
  repeat split_step; try quiet.
  all: try match goal with
           | H : Verbose.dispatch ?l = _ |- _ =>
               destruct (verbose_dispatch_cases l) as [[? Hd] | Hd];
               rewrite Hd in H; discriminate H
           end.
  use_branch.
Qed.

Lemma legacy_handler_ok env h req :
  handler_ok (Legacy.handler env h req) (fun _ => True).
Proof.
  unfold handler_ok, run, Legacy.handler, getArticle. eff. reduce.
  repeat split_step; try quiet.
  all: use_branch.
Qed.

(** X1. Every invocation of each handler returns a response, whatever the
    request and the host do, and its status is 200, 400 or 500. *)
Theorem handlers_always_answer (env : Env) (h : Host)
    (req : Outcome WebhookPayload) :
  (exists r, fst (run (Annotate.handler env h req)) = Returned r /\ answered r)
  /\ (exists r, fst (run (Verbose.handler env h req)) = Returned r /\ answered r)
  /\ (exists r, fst (run (Legacy.handler env h req)) = Returned r /\ answered r).
Proof.
  destruct (annotate_handler_ok env h req) as (r1 & H1 & A1 & _).
  destruct (verbose_handler_ok env h req) as (r2 & H2 & A2 & _).
  destruct (legacy_handler_ok env h req) as (r3 & H3 & A3 & _).
  repeat split; eexists; split; eassumption.
Qed.

(** X2. An invocation of each handler calls
    [openai.chat.completions.create] at most once and sends at most one
    Omnivore mutation. *)
Theorem one_completion_one_mutation (env : Env) (h : Host)
    (req : Outcome WebhookPayload) :
  (completions (calls (snd (run (Annotate.handler env h req)))) <= 1
   /\ mutations (calls (snd (run (Annotate.handler env h req)))) <= 1)
  /\ (completions (calls (snd (run (Verbose.handler env h req)))) <= 1
      /\ mutations (calls (snd (run (Verbose.handler env h req)))) <= 1)
  /\ (completions (calls (snd (run (Legacy.handler env h req)))) <= 1
      /\ mutations (calls (snd (run (Legacy.handler env h req)))) <= 1).
Proof.
  destruct (annotate_handler_ok env h req) as (r1 & _ & _ & C1 & M1 & _).
  destruct (verbose_handler_ok env h req) as (r2 & _ & _ & C2 & M2 & _).
  destruct (legacy_handler_ok env h req) as (r3 & _ & _ & C3 & M3 & _).
  repeat split; assumption.
Qed.

(** X3. The handler of [src/api/annotate.ts] never sends [setLabels]:
    its tags branch cannot be reached. *)
Theorem annotate_handler_never_writes_labels (env : Env) (h : Host)
    (req : Outcome WebhookPayload) :
  writtenLabels (calls (snd (run (Annotate.handler env h req)))) = [].
Proof.
  now destruct (annotate_handler_ok env h req) as (r & _ & _ & _ & _ & W).
Qed.

(** X4. The handler of the verbose variant never sends [updateHighlight]
    or [createHighlight]: its annotation branch cannot be reached. *)
Theorem verbose_handler_never_writes_notes (env : Env) (h : Host)
    (req : Outcome WebhookPayload) :
  noteWrites (calls (snd (run (Verbose.handler env h req)))) = [].
Proof.
  now destruct (verbose_handler_ok env h req) as (r & _ & _ & _ & _ & W).
Qed.

End Invocation.

(** ** Requests the handlers turn away *)

Module Rejections.
Import Common.

Ltac reduce := cbv beta iota zeta; cbn [fst snd calls uuids option_map].

(** X5. A payload without a label entry that is an object with a [name]
    is answered 400 by the handlers of [src/api/annotate.ts] and of the
    verbose variant, before any call is sent. *)
Theorem no_labels_is_400 (env : Env) (h : Host) (body : WebhookPayload) :
  payloadLabels body = [] ->
  (fst (run (Annotate.handler env h (Returned body)))
   = Returned (mkResponse "No labels found in the webhook payload." 400)
   /\ calls (snd (run (Annotate.handler env h (Returned body)))) = [])
  /\ (fst (run (Verbose.handler env h (Returned body)))
      = Returned (mkResponse "No labels found in the webhook payload." 400)
      /\ calls (snd (run (Verbose.handler env h (Returned body)))) = []).
Proof.
  intros Hnone. unfold run, Annotate.handler, Verbose.handler. eff. reduce.
  rewrite Hnone. repeat split.
Qed.

Lemma no_labels_is_400_witness :
  fst (run (Annotate.handler env_default (host_of data_plain None)
              (Returned (payload_with "created" [WireOther] (Some "a1")))))
  = Returned (mkResponse "No labels found in the webhook payload." 400).
Proof.
  exact (proj1 (proj1 (no_labels_is_400 env_default (host_of data_plain None)
                         (payload_with "created" [WireOther] (Some "a1"))
                         eq_refl))).
Defined.

(** X6. A payload whose labels hold no trigger label is answered 400,
    with a message that names the trigger, before any call is sent. *)
Theorem no_trigger_label_is_400 (env : Env) (h : Host) (body : WebhookPayload) :
  payloadLabels body <> [] ->
  matchingLabels (payloadLabels body)
    (JS.nullish (OMNIVORE_ANNOTATE_LABEL env) "do") = [] ->
  let T := JS.nullish (OMNIVORE_ANNOTATE_LABEL env) "do" in
  let answer :=
    mkResponse ("No '" ++ T ++ "' labels found. Expected at least one '"
                  ++ T ++ "' or '" ++ T ++ ":*' label.") 400 in
  (fst (run (Annotate.handler env h (Returned body))) = Returned answer
   /\ calls (snd (run (Annotate.handler env h (Returned body)))) = [])
  /\ (fst (run (Verbose.handler env h (Returned body))) = Returned answer
      /\ calls (snd (run (Verbose.handler env h (Returned body)))) = []).
Proof.
  intros Hsome Hnone. unfold run, Annotate.handler, Verbose.handler. eff. reduce.
  rewrite Hnone. destruct (payloadLabels body); [contradiction|].
  repeat split.
Qed.

Lemma no_trigger_label_is_400_witness :
  fst (run (Verbose.handler env_default (host_of data_plain None)
              (Returned (payload_with "created" [entry "x"; entry "done"]
                           (Some "a1")))))
  = Returned
      (mkResponse
         "No 'do' labels found. Expected at least one 'do' or 'do:*' label."
         400).
Proof.
  assert (Hsome : payloadLabels
                    (payload_with "created" [entry "x"; entry "done"] (Some "a1"))
                  <> []) by discriminate.
  exact (proj1 (proj2 (no_trigger_label_is_400 env_default
                         (host_of data_plain None)
                         (payload_with "created" [entry "x"; entry "done"]
                            (Some "a1"))
                         Hsome eq_refl))).
Defined.

(** X7. A payload with a trigger label and no page id (absent or empty)
    makes the handlers of [src/api/annotate.ts] and of the verbose variant
    throw inside their [try]: the answer is 500 with the error's message,
    and no call is sent. *)
Theorem missing_page_id_is_500 (env : Env) (h : Host) (body : WebhookPayload)
    (lp : WebhookLabelPayload) :
  wp_label body = Some lp ->
  falsy (lp_pageId lp) ->
  matchingLabels (payloadLabels body)
    (JS.nullish (OMNIVORE_ANNOTATE_LABEL env) "do") <> [] ->
  let answer :=
    mkResponse
      "Error processing Omnivore webhook: No article ID found in the webhook payload."
      500 in
  (fst (run (Annotate.handler env h (Returned body))) = Returned answer
   /\ calls (snd (run (Annotate.handler env h (Returned body)))) = [])
  /\ (fst (run (Verbose.handler env h (Returned body))) = Returned answer
      /\ calls (snd (run (Verbose.handler env h (Returned body)))) = []).
Proof.
  intros Hlabel Hpage Hmatch.
  unfold run, Annotate.handler, Verbose.handler. eff. reduce.
  rewrite Hlabel.
  destruct (matchingLabels (payloadLabels body) _) as [|m ms] eqn:Hm;
    [contradiction|].
  destruct (payloadLabels body) as [|l ls]; [discriminate Hm|].
  cbn [length Nat.eqb]. reduce.
  destruct Hpage as [-> | ->]; repeat split.
Qed.

Lemma missing_page_id_is_500_witness :
  fst (run (Annotate.handler env_default (host_of data_plain None)
              (Returned (payload_with "created" [entry "do:tags"] (Some "")))))
  = Returned
      (mkResponse
         "Error processing Omnivore webhook: No article ID found in the webhook payload."
         500).
Proof.
  assert (Hmatch : matchingLabels
                     (payloadLabels
                        (payload_with "created" [entry "do:tags"] (Some "")))
                     (JS.nullish (OMNIVORE_ANNOTATE_LABEL env_default) "do")
                   <> []) by discriminate.
  exact (proj1 (proj1 (missing_page_id_is_500 env_default
                         (host_of data_plain None)
                         (payload_with "created" [entry "do:tags"] (Some ""))
                         _ eq_refl (or_intror eq_refl) Hmatch))).
Defined.

(** X8. The legacy handler answers 200 and sends nothing when the action
    of the payload does not start with [do]; when it does and neither the
    label payload nor the page payload gives a non-empty id, it answers 500
    and sends nothing. *)
Theorem legacy_early_answers (env : Env) (h : Host) (body : WebhookPayload) :
  (JS.startsWith (wp_action body) "do" = false ->
   run (Legacy.handler env h (Returned body))
   = (Returned (mkResponse "Not a 'do:' action, ignoring." 200), start))
  /\ (JS.startsWith (wp_action body) "do" = true ->
      JS.truthy_opt (Legacy.articleIdOf body) = false ->
      run (Legacy.handler env h (Returned body))
      = (Returned
           (mkResponse
              "Error processing Omnivore webhook: No article ID found in the webhook payload."
              500),
         start)).
Proof.
  split.
  - intros Haction. unfold run, Legacy.handler. eff. reduce.
    now rewrite Haction.
  - intros Haction Hid. unfold run, Legacy.handler. eff. reduce.
    rewrite Haction. cbn [negb]. reduce.
    destruct (Legacy.articleIdOf body) as [i|]; [|reflexivity].
    cbn [JS.truthy_opt] in Hid. now rewrite Hid.
Qed.

Lemma legacy_early_answers_witness :
  run (Legacy.handler env_default (host_of data_plain None)
         (Returned (payload_with "created" [entry "do:tags"] (Some "a1"))))
  = (Returned (mkResponse "Not a 'do:' action, ignoring." 200), start)
  /\ run (Legacy.handler env_default (host_of data_plain None)
            (Returned (payload_with "do:tags" [entry "do:tags"] None)))
     = (Returned
          (mkResponse
             "Error processing Omnivore webhook: No article ID found in the webhook payload."
             500),
        start).
Proof.
  split.
  - exact (proj1 (legacy_early_answers env_default (host_of data_plain None)
                    (payload_with "created" [entry "do:tags"] (Some "a1")))
             eq_refl).
  - exact (proj2 (legacy_early_answers env_default (host_of data_plain None)
                    (payload_with "do:tags" [entry "do:tags"] None))
             eq_refl eq_refl).
Defined.

End Rejections.

(** ** More on dispatch *)

Module DispatchFacts.
Import Common.

(** X9. In [src/api/annotate.ts] every non-empty list of matching labels
    runs the annotation branch on the action of its first label, whatever
    the operations of the labels are; the empty list is unhandled. *)
Theorem annotate_runs_first_label (env : Env) (T n : string)
    (names : list string) (article : Article) :
  (exists a,
     Annotate.getLabelAction env T (n :: names) article
     = a :: Annotate.getLabelAction env T names article
     /\ Annotate.label a = n
     /\ Annotate.dispatch (Annotate.getLabelAction env T (n :: names) article)
        = Annotate.RunAnnotation a)
  /\ Annotate.dispatch (Annotate.getLabelAction env T [] article)
     = Annotate.Unhandled.
Proof.
  split; [|reflexivity].
  eexists. split; [reflexivity|]. split; [reflexivity|].
  unfold Annotate.dispatch.
  rewrite Dispatcher.annotate_never_resolves. reflexivity.
Qed.

(** The verbose dispatch on two actions, the second of them [tags]. *)
Lemma verbose_dispatch_first_tags_witness :
  Verbose.dispatch
    [Verbose.mkLabelAction "do:sum" "did:sum" (Some "do") (Some "sum") [] None;
     action_tags_verbose]
  = Verbose.RunTagGeneration (Some action_tags_verbose).
Proof.
  apply (Dispatcher.verbose_dispatch_first_tags
           [Verbose.mkLabelAction "do:sum" "did:sum" (Some "do") (Some "sum")
              [] None]
           [] action_tags_verbose).
  - repeat constructor. discriminate.
  - reflexivity.
Defined.

(** The verbose dispatch on one action that is not [tags]. *)
Lemma verbose_without_tags_is_unhandled_witness :
  Verbose.dispatch
    [Verbose.mkLabelAction "do:sum" "did:sum" (Some "do") (Some "sum") [] None]
  = Verbose.Unhandled.
Proof.
  apply Dispatcher.verbose_without_tags_is_unhandled.
  repeat constructor. discriminate.
Defined.

End DispatchFacts.

(** ** More on the tag-generation flow *)

Module TagFacts.
Import Common.

Ltac reduce := cbv beta iota zeta; cbn [fst snd calls uuids option_map].

(** [annotate_writes_union] on a concrete run. *)
Lemma annotate_writes_union_witness :
  writtenLabels
    (calls (snd (Annotate.tagsFlow (host_of data_plain (Some "y"))
                   headers_default "do" "{}" article_plain action_tags start)))
  = [[JStr "x"; JStr "do:tags"; JStr "y"; JStr "did:tags"]].
Proof.
  assert (Hsome : ["y"] <> @nil string) by discriminate.
  exact (TagFlow.annotate_writes_union (host_of data_plain (Some "y"))
           headers_default "do" "{}" article_plain action_tags (JObj [])
           (Some "y") [mkLabel "x" None; mkLabel "y" None] ["y"] start
           eq_refl eq_refl eq_refl eq_refl Hsome).
Defined.

(** [verbose_writes_union] on a concrete run. *)
Lemma verbose_writes_union_witness :
  writtenLabels
    (calls (snd (Verbose.tagsFlow host_structured headers_default "do" "{}"
                   article_plain (Some action_tags_verbose) start)))
  = [[Verbose.labelObject (mkLabel "x" None);
      Verbose.labelObject (mkLabel "do:tags" (Some "List tags."));
      JObj [("name", JStr "y"); ("description", JStr "")];
      JObj [("name", JStr "did:tags")]]].
Proof.
  assert (Hresponse : "{}" <> "") by discriminate.
  exact (TagFlow.verbose_writes_union host_structured headers_default "do" "{}"
           article_plain action_tags_verbose _ "{}" _ _ [] start
           eq_refl eq_refl eq_refl eq_refl Hresponse eq_refl eq_refl eq_refl).
Defined.

(** X15. The tags that [src/api/annotate.ts] and the legacy variant keep
    from a completion are never empty and never the name of a label the
    article already has. *)
Theorem generated_tags_are_new (article : Article) (content : option string)
    (tags : list string) :
  Annotate.generatedTags article content = Some tags ->
  Legacy.generatedTags (labels article) content = Some tags
  /\ Forall (fun tag => tag <> "" /\ ~ In tag (map name (labels article))) tags.
Proof.
  intros Htags. split; [exact Htags|].
  destruct content as [c|]; [|discriminate Htags].
  injection Htags as <-. apply Forall_forall. intros tag Hin.
  apply filter_In in Hin as [_ Hkeep].
  apply andb_true_iff in Hkeep as [Htruthy Hnew]. cbv beta. split.
  - intros ->. discriminate Htruthy.
  - intros Hold. apply in_map_iff in Hold as (l & Hname & Hl).
    apply negb_true_iff in Hnew.
    assert (Hex : existsb (fun existing => name existing =? tag)
                    (labels article) = true).
    { apply existsb_exists. exists l. split; [exact Hl|].
      now apply String.eqb_eq. }
    congruence.
Qed.

Lemma generated_tags_are_new_witness :
  Forall (fun tag => tag <> "" /\ ~ In tag (map name (labels article_plain)))
    ["y"; "z"].
Proof.
  exact (proj2 (generated_tags_are_new article_plain
                  (Some (" y " ++ String JS.newline
                           ("x" ++ String JS.newline
                              (String JS.newline "z"))))
                  ["y"; "z"] eq_refl)).
Defined.

Lemma nothing_new (labels : list Label) (lines : list string) :
  Forall (fun line =>
            JS.trim line = "" \/ In (JS.trim line) (map name labels)) lines ->
  filter (fun tag =>
            JS.truthy tag
            && negb (existsb (fun existing => name existing =? tag) labels))
    (map JS.trim lines) = [].
Proof.
  induction 1 as [|line lines Hline _ IH]; simpl; [reflexivity|].
  destruct Hline as [-> | Hold]; simpl; [exact IH|].
  apply in_map_iff in Hold as (l & Hname & Hl).
  assert (Hex : existsb (fun existing => name existing =? JS.trim line) labels
                = true).
  { apply existsb_exists. exists l. split; [exact Hl|].
    now apply String.eqb_eq. }
  rewrite Hex, andb_false_r. exact IH.
Qed.

(** X16. When every line of the completion is blank or, once trimmed, the
    name of a label the article already has, the tag branch of the legacy
    variant and of [src/api/annotate.ts] sends no mutation and answers 200
    with [No new tags generated.]. *)
Theorem known_tags_write_nothing (h : Host) (omnivoreHeaders : Headers)
    (T settings articleId didAction : string) (article : Article)
    (fragments : list string) (cur : Annotate.LabelAction)
    (parsed : json) (c : string) (allLabels : list Label) (t : Trace) :
  Forall (fun line =>
            JS.trim line = ""
            \/ In (JS.trim line) (map name (labels article)))
    (JS.split JS.newline (JS.trim c)) ->
  JSON_parse h settings = Returned parsed ->
  labels_query h omnivoreHeaders = Returned allLabels ->
  (forall prompt schema,
     chat_completion h parsed prompt schema = Returned (Some c)) ->
  (fst (Legacy.tagsFlow h omnivoreHeaders T settings articleId didAction
          article fragments t)
   = Returned (mkResponse "No new tags generated." 200)
   /\ mutations
        (calls (snd (Legacy.tagsFlow h omnivoreHeaders T settings articleId
                       didAction article fragments t)))
      = mutations (calls t))
  /\ (fst (Annotate.tagsFlow h omnivoreHeaders T settings article cur t)
      = Returned (mkResponse "No new tags generated." 200)
      /\ mutations
           (calls (snd (Annotate.tagsFlow h omnivoreHeaders T settings article
                          cur t)))
         = mutations (calls t)).
Proof.
  intros Hknown Hparse Hlabels Hcompletion.
  pose proof (nothing_new _ _ Hknown) as Hnone.
  unfold Legacy.tagsFlow, Annotate.tagsFlow, Legacy.generatedTags,
    Annotate.generatedTags, getAllLabelsFromOmnivore.
  eff. reduce. rewrite Hlabels. reduce. rewrite Hparse. reduce.
  rewrite !Hcompletion. reduce. rewrite Hnone. cbn [length Nat.eqb]. reduce.
  rewrite !Invocation.mutations_app. cbn [mutations]. repeat split; lia.
Qed.

Lemma known_tags_write_nothing_witness :
  fst (Legacy.tagsFlow (host_of data_plain (Some "x")) headers_default "do"
         "{}" "a1" "did:tags" article_plain ["Go"] start)
  = Returned (mkResponse "No new tags generated." 200).
Proof.
  assert (Hknown :
    Forall (fun line =>
              JS.trim line = ""
              \/ In (JS.trim line) (map name (labels article_plain)))
      (JS.split JS.newline (JS.trim "x"))).
  { change (JS.split JS.newline (JS.trim "x")) with ["x"].
    apply Forall_cons; [right; simpl; tauto | apply Forall_nil]. }
  exact (proj1 (proj1 (known_tags_write_nothing (host_of data_plain (Some "x"))
                         headers_default "do" "{}" "a1" "did:tags"
                         article_plain ["Go"] action_tags (JObj []) "x"
                         [mkLabel "x" None; mkLabel "y" None] start
                         Hknown eq_refl eq_refl (fun _ _ => eq_refl)))).
Defined.

End TagFacts.

(** ** Failures of the host *)

Module Failures.
Import Common.

Ltac reduce := cbv beta iota zeta; cbn [fst snd calls uuids option_map].

(** X17. In the legacy handler a failure of the [setLabels] request is not
    caught in the tag branch: the request is sent, the error reaches the
    [catch] of the handler and the answer is 500 with its message. *)
Theorem legacy_failed_write_is_500 (env : Env) (h : Host)
    (body : WebhookPayload) (articleId : string) (d : ArticleData)
    (parsed : json) (content : option string) (allLabels : list Label)
    (tag : string) (tags : list string) (m : string) :
  wp_action body = "do:tags" ->
  Legacy.articleIdOf body = Some articleId ->
  articleId <> "" ->
  article_query h (omnivoreHeaders env) articleId = Returned d ->
  new_OpenAI h = Returned tt ->
  labels_query h (omnivoreHeaders env) = Returned allLabels ->
  JSON_parse h (settingsText env "gpt-4-turbo-preview") = Returned parsed ->
  (forall prompt schema,
     chat_completion h parsed prompt schema = Returned content) ->
  Legacy.generatedTags (d_labels d) content = Some (tag :: tags) ->
  (forall c, omnivore_write h c = Thrown m) ->
  fst (run (Legacy.handler env h (Returned body)))
  = Returned (mkResponse ("Error processing Omnivore webhook: " ++ m) 500)
  /\ writtenLabels (calls (snd (run (Legacy.handler env h (Returned body)))))
     = [map JStr (tag :: tags)].
Proof.
  intros Haction Hid Hsome Harticle Hclient Hlabels Hparse Hcompletion Htags
    Hwrite.
  unfold run, Legacy.handler, getArticle, Legacy.tagsFlow,
    getAllLabelsFromOmnivore, addLabelsToOmnivoreArticle.
  eff. reduce. rewrite Haction. cbn [JS.startsWith String.prefix negb].
  change (String.prefix "do" "do:tags") with true. cbn [negb]. reduce.
  rewrite Hid, (JSFacts.truthy_nonempty _ Hsome). reduce.
  rewrite Harticle. reduce. rewrite Hclient. reduce.
  change ("do:tags" =? "do:tags") with true. reduce.
  rewrite Hlabels. reduce. rewrite Hparse. reduce.
  rewrite Hcompletion. reduce.
  cbn [articleOf labels]. rewrite Htags. cbn [length Nat.eqb]. reduce.
  rewrite Hwrite. reduce. split; reflexivity.
Qed.

Lemma legacy_failed_write_is_500_witness :
  fst (run (Legacy.handler env_default
              (host_failing_write data_plain (Some "y"))
              (Returned (payload_with "do:tags" [] (Some "a1")))))
  = Returned
      (mkResponse "Error processing Omnivore webhook: fetch failed" 500).
Proof.
  assert (Hid : "a1" <> "") by discriminate.
  exact (proj1 (legacy_failed_write_is_500 env_default
                  (host_failing_write data_plain (Some "y"))
                  (payload_with "do:tags" [] (Some "a1")) "a1" data_plain
                  (JObj []) (Some "y") [mkLabel "x" None; mkLabel "y" None]
                  "y" [] "fetch failed"
                  eq_refl eq_refl Hid eq_refl eq_refl eq_refl eq_refl
                  (fun _ _ => eq_refl) eq_refl (fun _ => eq_refl))).
Defined.

(** X18. In [src/api/annotate.ts] the outcome of the note mutation does
    not reach the response: once the completion has given a text, the
    handler sends one note mutation and answers 200 with
    [Annotation applied to the article.], also when the mutation fails. *)
Theorem annotate_note_write_unchecked (env : Env) (h : Host)
    (body : WebhookPayload) (lp : WebhookLabelPayload) (articleId : string)
    (d : ArticleData) (parsed : json) (c n : string) (names : list string) :
  wp_label body = Some lp ->
  lp_pageId lp = Some articleId ->
  articleId <> "" ->
  matchingLabels (payloadLabels body)
    (JS.nullish (OMNIVORE_ANNOTATE_LABEL env) "do") = n :: names ->
  article_query h (omnivoreHeaders env) articleId = Returned d ->
  new_OpenAI h = Returned tt ->
  JSON_parse h (settingsText env "gpt-4-turbo-preview") = Returned parsed ->
  (forall prompt schema,
     chat_completion h parsed prompt schema = Returned (Some c)) ->
  escapeAnnotation (JS.trim c) <> "" ->
  fst (run (Annotate.handler env h (Returned body)))
  = Returned (mkResponse "Annotation applied to the article." 200)
  /\ mutations (calls (snd (run (Annotate.handler env h (Returned body))))) = 1.
Proof.
  intros Hlabel Hpage Hsome Hmatch Harticle Hclient Hparse Hcompletion Htext.
  unfold run, Annotate.handler, getArticle. eff. reduce.
  rewrite Hlabel, Hmatch, Hpage.
  destruct (payloadLabels body) as [|l ls]; [discriminate Hmatch|].
  cbn [length Nat.eqb]. reduce.
  rewrite (JSFacts.truthy_nonempty _ Hsome). reduce.
  rewrite Harticle. reduce. rewrite Hclient. reduce.
  unfold Annotate.dispatch. rewrite Dispatcher.annotate_never_resolves.
  cbn [Annotate.getLabelAction map Annotate.hasOpenLabelActions
       Annotate.hasOpen Annotate.nextAction existsb find Annotate.done
       Bool.eqb orb]. reduce.
  unfold Annotate.annotationFlow, applyAnnotationToOmnivoreArticle,
    updateAnnotationInOmnivoreArticle, addAnnotationToOmnivoreArticle.
  eff. reduce. rewrite Hparse. reduce. rewrite Hcompletion. reduce.
  rewrite (JSFacts.truthy_nonempty _ Htext). reduce.
  destruct (existingNote (articleOf articleId d)); reduce;
    match goal with
    | |- context [omnivore_write ?h ?c] => destruct (omnivore_write h c)
    end; reduce;
    rewrite !Invocation.mutations_app; split; reflexivity.
Qed.

Lemma annotate_note_write_unchecked_witness :
  fst (run (Annotate.handler env_default
              (host_failing_write data_noted (Some "Summary"))
              (Returned (payload_with "created" [entry "do:sum"] (Some "a1")))))
  = Returned (mkResponse "Annotation applied to the article." 200).
Proof.
  assert (Hid : "a1" <> "") by discriminate.
  assert (Htext : escapeAnnotation (JS.trim "Summary") <> "") by discriminate.
  exact (proj1 (annotate_note_write_unchecked env_default
                  (host_failing_write data_noted (Some "Summary"))
                  (payload_with "created" [entry "do:sum"] (Some "a1"))
                  _ "a1" data_noted (JObj []) "Summary" "do:sum" []
                  eq_refl eq_refl Hid eq_refl eq_refl eq_refl eq_refl
                  (fun _ _ => eq_refl) Htext)).
Defined.

(** X19. In the verbose variant a completion that parses to an array is
    not read as a list of tags: the empty array gives 200 with
    [No new tags generated.], any other array makes the spread of its
    missing [tags] field throw; neither sends a mutation. *)
Theorem verbose_array_completion (h : Host) (omnivoreHeaders : Headers)
    (T settings : string) (article : Article) (cur : Verbose.LabelAction)
    (parsed : json) (response : string) (items : list json)
    (allLabels : list Label) (t : Trace) :
  labels_query h omnivoreHeaders = Returned allLabels ->
  new_OpenAI h = Returned tt ->
  JSON_parse h settings = Returned parsed ->
  chat_completion h parsed (Verbose.tagsPrompt h T article cur allLabels) true
    = Returned (Some response) ->
  response <> "" ->
  JSON_parse h response = Returned (JArr items) ->
  match items with
  | [] =>
      fst (Verbose.tagsFlow h omnivoreHeaders T settings article (Some cur) t)
      = Returned (mkResponse "No new tags generated." 200)
  | _ :: _ =>
      exists m,
        fst (Verbose.tagsFlow h omnivoreHeaders T settings article (Some cur) t)
        = Thrown m
  end
  /\ mutations
       (calls (snd (Verbose.tagsFlow h omnivoreHeaders T settings article
                      (Some cur) t)))
     = mutations (calls t).
Proof.
  intros Hlabels Hclient Hparse Hcompletion Hresponse Hjson.
  unfold Verbose.tagsFlow, getAllLabelsFromOmnivore. eff. reduce.
  rewrite Hlabels. reduce. rewrite Hclient. reduce. rewrite Hparse. reduce.
  rewrite Hcompletion. reduce.
  rewrite (JSFacts.truthy_nonempty _ Hresponse). reduce.
  rewrite Hjson. reduce.
  destruct items as [|item items];
    cbn [Verbose.json_truthy Verbose.get_prop negb orb Verbose.is_zero
         String.eqb Ascii.eqb Bool.eqb length Z.of_nat Z.eqb Verbose.spread];
    reduce; rewrite !Invocation.mutations_app; cbn [mutations];
    (split; [|lia]).
  - reflexivity.
  - eexists. reflexivity.
Qed.

Lemma verbose_array_completion_witness :
  exists m,
    fst (Verbose.tagsFlow host_bare_array headers_default "do" "{}"
           article_plain (Some action_tags_verbose) start)
    = Thrown m.
Proof.
  assert (Hresponse : "[...]" <> "") by discriminate.
  exact (proj1 (verbose_array_completion host_bare_array headers_default "do"
                  "{}" article_plain action_tags_verbose _ "[...]"
                  [JObj [("name", JStr "y"); ("description", JStr "")]] []
                  start eq_refl eq_refl eq_refl eq_refl Hresponse eq_refl)).
Defined.

End Failures.

(** ** The escaping of an annotation *)

Module Escaping.
Import Common.

Lemma replaceAllChar_append (c : ascii) (rep a b : string) :
  JS.replaceAllChar c rep (a ++ b)
  = JS.replaceAllChar c rep a ++ JS.replaceAllChar c rep b.
Proof.
  induction a as [|x a IH]; simpl; [reflexivity|].
  now rewrite IH, JSFacts.append_assoc.
Qed.

(** The two replacements, character by character. *)
Lemma escapeAnnotation_cons (c : ascii) (s : string) :
  escapeAnnotation (String c s)
  = (if Ascii.eqb c JS.backslash then "\\"
     else if Ascii.eqb c JS.dquote then "\" ++ dq
     else String c "")
    ++ escapeAnnotation s.
Proof.
  unfold escapeAnnotation.
  cbn [JS.replaceAllChar]. rewrite replaceAllChar_append.
  destruct (Ascii.eqb c JS.backslash) eqn:Hb.
  - reflexivity.
  - cbn [JS.replaceAllChar]. rewrite JSFacts.append_nil_r.
    destruct (Ascii.eqb c JS.dquote); reflexivity.
Qed.

(** X20. The escaping of the annotation loses nothing: reading each
    backslash of the escaped text as an escape of the next character gives
    the text back, and the escaped text is empty only for the empty
    text. *)
Theorem escapeAnnotation_round_trip (s : string) :
  unescape (escapeAnnotation s) = s
  /\ (escapeAnnotation s = "" <-> s = "").
Proof.
  split.
  - induction s as [|c s IH]; [reflexivity|].
    rewrite escapeAnnotation_cons.
    destruct (Ascii.eqb c JS.backslash) eqn:Hb.
    + apply Ascii.eqb_eq in Hb as ->. cbn. now rewrite IH.
    + destruct (Ascii.eqb c JS.dquote) eqn:Hq.
      * apply Ascii.eqb_eq in Hq as ->. cbn. now rewrite IH.
      * cbn [append unescape]. now rewrite Hb, IH.
  - split; [|now intros ->].
    destruct s as [|c s]; [reflexivity|].
    rewrite escapeAnnotation_cons.
    destruct (Ascii.eqb c JS.backslash); [discriminate|].
    destruct (Ascii.eqb c JS.dquote); discriminate.
Qed.

End Escaping.

(** ** Trigger labels across the components *)

Module Namespace.
Import Common.

Lemma colon_free_namespace (T n : string) :
  contains JS.colon T = false -> (beforeFirstColon n T <-> qualifies T n).
Proof.
  intros HT. unfold beforeFirstColon, qualifies. tauto.
Qed.

(** X21. When the trigger has no colon, [labelsToPrompt] of
    [src/api/annotate.ts] and of the legacy variant drops exactly the
    labels that the classifier matches; when the trigger has a colon it
    drops none, so trigger labels stay in the prompt. *)
Theorem prompt_filter_and_classifier (T : string) (l : Label) :
  (contains JS.colon T = false ->
   Annotate.outsideNamespace T l
   = negb ((name l =? T) || JS.startsWith (name l) (T ++ ":")))
  /\ (contains JS.colon T = true -> Annotate.outsideNamespace T l = true)
  /\ negb (Legacy.inNamespace T l) = Annotate.outsideNamespace T l.
Proof.
  repeat split.
  - intros HT.
    destruct (Annotate.outsideNamespace T l) eqn:Hout;
      destruct ((name l =? T) || JS.startsWith (name l) (T ++ ":")) eqn:Hq;
      try reflexivity; exfalso.
    + apply Taxonomy.outsideNamespace_decided in Hout. apply Hout.
      apply colon_free_namespace; [exact HT|].
      now apply Classifier.qualifies_decided.
    + assert (Hnot : ~ beforeFirstColon (name l) T).
      { intros Hin. apply colon_free_namespace in Hin; [|exact HT].
        apply Classifier.qualifies_decided in Hin. congruence. }
      apply Taxonomy.outsideNamespace_decided in Hnot. congruence.
  - intros HT. apply Taxonomy.outsideNamespace_decided.
    intros [Hfree _]. congruence.
  - unfold Legacy.inNamespace, Annotate.outsideNamespace.
    now destruct (JS.at_index (JS.split JS.colon (name l)) 0).
Qed.

Lemma prompt_filter_and_classifier_witness :
  Annotate.outsideNamespace "do" (mkLabel "do:tags" None) = false
  /\ Annotate.outsideNamespace "a:b" (mkLabel "a:b:tags" None) = true.
Proof.
  split.
  - exact (proj1 (prompt_filter_and_classifier "do" (mkLabel "do:tags" None))
             eq_refl).
  - exact (proj1 (proj2 (prompt_filter_and_classifier "a:b"
                           (mkLabel "a:b:tags" None)))
             eq_refl).
Defined.

(** X22. The verbose [labelsToPrompt] drops every label that the one of
    [src/api/annotate.ts] drops, and more: each label it keeps is kept by
    [src/api/annotate.ts], in the same order. *)
Theorem verbose_prompt_keeps_less (T : string) (labels : list Label) :
  filter (fun label => negb (JS.startsWith (name label) T))
    (filter (Annotate.outsideNamespace T) labels)
  = filter (fun label => negb (JS.startsWith (name label) T)) labels.
Proof.
  induction labels as [|l labels IH]; [reflexivity|].
  cbn [filter].
  destruct (Annotate.outsideNamespace T l) eqn:Hout.
  - cbn [filter]. now rewrite IH.
  - rewrite IH.
    assert (Hstarts : JS.startsWith (name l) T = true).
    { apply JSFacts.startsWith_spec.
      destruct (JS.startsWith (name l) T) eqn:Hs;
        [now apply JSFacts.startsWith_spec|].
      exfalso.
      assert (Hin : beforeFirstColon (name l) T).
      { destruct (JS.at_index (JS.split JS.colon (name l)) 0) as [first|] eqn:Hf;
          unfold Annotate.outsideNamespace in Hout; rewrite Hf in Hout;
          [|discriminate Hout].
        apply negb_false_iff, String.eqb_eq in Hout as ->.
        now apply JSFacts.first_segment. }
      destruct Hin as [_ [Heq | [rest Heq]]];
        assert (Htrue : JS.startsWith (name l) T = true)
          by (apply JSFacts.startsWith_spec; rewrite Heq;
              first [now exists "" ; rewrite JSFacts.append_nil_r
                    | now exists (":" ++ rest)]);
        congruence. }
    now rewrite Hstarts.
Qed.

(** X23. Every label the classifier matches yields an action: the
    resolver, run on the classifier's result, gives each matched name, in
    order, one action that carries the name, whose replacement label is the
    bare trigger itself or the name with its leading trigger and colon
    replaced by [did:]; in particular each entry of the payload whose name
    qualifies has such an action. *)
Theorem matched_labels_are_marked_done (env : Env) (T : string)
    (L : list WebhookLabel) (article : Article) :
  (Forall2 (fun n a =>
      Annotate.label a = n
      /\ ((n = T /\ Annotate.replacedLabel a = T)
          \/ exists rest,
               n = T ++ ":" ++ rest
               /\ Annotate.replacedLabel a = "did:" ++ rest))
     (matchingLabels L T)
     (Annotate.getLabelAction env T (matchingLabels L T) article)
   /\ forall l, In l L -> qualifies T (wl_name l) ->
      exists a,
        In a (Annotate.getLabelAction env T (matchingLabels L T) article)
        /\ Annotate.label a = wl_name l)
  /\ (Forall2 (fun n a =>
         Verbose.label a = n
         /\ ((n = T /\ Verbose.replacedLabel a = T)
             \/ exists rest,
                  n = T ++ ":" ++ rest
                  /\ Verbose.replacedLabel a = "did:" ++ rest))
        (matchingLabels L T)
        (Verbose.getLabelAction env (matchingLabels L T) article T)
      /\ forall l, In l L -> qualifies T (wl_name l) ->
         exists a,
           In a (Verbose.getLabelAction env (matchingLabels L T) article T)
           /\ Verbose.label a = wl_name l).
Proof.
  assert (Hq : forall n, In n (matchingLabels L T) -> qualifies T n).
  { intros n Hn. unfold matchingLabels in Hn.
    apply in_map_iff in Hn as (l & <- & Hl).
    apply filter_In in Hl as [_ Hl].
    now apply Classifier.qualifies_decided. }
  assert (Hin : forall l, In l L -> qualifies T (wl_name l) ->
                In (wl_name l) (matchingLabels L T)).
  { intros l Hl Hqual. unfold matchingLabels. apply in_map.
    apply filter_In. split; [exact Hl|].
    now apply Classifier.qualifies_decided. }
  split; (split;
    [ apply ListFacts.Forall2_map; intros n Hn;
      (split; [reflexivity|]); cbn;
      (destruct (Hq n Hn) as [-> | [rest ->]];
       [ left; split; [reflexivity | apply Resolver.bare_trigger_unchanged]
       | right; exists rest; split;
         [reflexivity | apply Resolver.prefixed_trigger_replaced] ])
    | intros l Hl Hqual; eexists; split;
      [ apply in_map; apply (Hin l Hl Hqual) | reflexivity ] ]).
Qed.

End Namespace.
